(** * Air-Modernity V2: the feature / score / clustering pipeline

    A shallow embedding of [scripts/config.py], [scripts/03_generate_features.py],
    [scripts/04_build_scores.py], [scripts/05_clustering.py] and [main.py].

    Conventions of the embedding.
    - A pandas float is a [num]: a rational, one of the two infinities, or NaN.
      Rounding of binary floating point is not modelled.
    - A CSV cell that has not been coerced yet is a [cell]: a number or a text.
    - A missing text (pandas [<NA>]) is [None].
    - A text is a [string] of Latin-1 code points.
    - Files are the fields of a [FileSystem] record; writing a table and reading
      it back returns the same table.
    - The [fleet_size] column of a features or scores table is numeric.  A
      file whose column holds a text, on which pandas raises [TypeError] at
      the comparison with [MIN_FLEET_SIZE], is not among the tables modelled:
      no statement says that step 4 or step 5 ends well on every table that
      has the required columns.
    - Python's parser of numeric literals is a parameter, [parse_float].
    - Calls into scikit-learn are events of a small free monad ([prog]); the
      library itself is a handler the theorems quantify over. *)

From Stdlib Require Import List String Ascii Bool ZArith QArith Qfield Lia.
From Stdlib Require Import Permutation Sorted.
Import ListNotations.

Set Implicit Arguments.
Local Open Scope string_scope.

(* ------------------------------------------------------------------ *)
(** ** config.py *)

Module Config.
Definition MIN_FLEET_SIZE : Z := 5.
End Config.

(* ------------------------------------------------------------------ *)
(** ** Numbers and cells, as pandas sees them *)

Inductive num : Type :=
| Fin (q : Q)
| PosInf
| NegInf
| NaN.

Inductive cell : Type :=
| CNum (x : num)
| CStr (s : string).

Definition of_Z (z : Z) : num := Fin (inject_Z z).
Definition of_nat (n : nat) : num := of_Z (Z.of_nat n).

Definition notna (x : num) : bool :=
  match x with NaN => false | _ => true end.

(** [Series.fillna(v)] *)
Definition fillna (v : Q) (x : num) : num :=
  match x with NaN => Fin v | _ => x end.

(** [Series.clip(lo, hi)]: NaN is left alone. *)
Definition clip (lo hi : Q) (x : num) : num :=
  match x with
  | Fin q => if Qlt_le_dec q lo then Fin lo
             else if Qlt_le_dec hi q then Fin hi else Fin q
  | PosInf => Fin hi
  | NegInf => Fin lo
  | NaN => NaN
  end.

(** [Series.replace(a, b)] on a numeric column. *)
Definition replace (a b : Q) (x : num) : num :=
  match x with
  | Fin q => if Qeq_bool q a then Fin b else x
  | _ => x
  end.

(** [x >= t] for a threshold [t]; a comparison with NaN is false. *)
Definition num_geb (x : num) (t : Q) : bool :=
  match x with
  | Fin q => Qle_bool t q
  | PosInf => true
  | NegInf | NaN => false
  end.

Definition num_add (x y : num) : num :=
  match x, y with
  | NaN, _ | _, NaN => NaN
  | Fin a, Fin b => Fin (a + b)
  | PosInf, NegInf | NegInf, PosInf => NaN
  | PosInf, _ | _, PosInf => PosInf
  | NegInf, _ | _, NegInf => NegInf
  end.

Definition num_opp (x : num) : num :=
  match x with
  | Fin a => Fin (- a)
  | PosInf => NegInf
  | NegInf => PosInf
  | NaN => NaN
  end.

(** The sign of a rational, as a comparison with zero. *)
Definition Qsgn (a : Q) : comparison := (0 ?= a)%Q.

Definition num_mul (x y : num) : num :=
  match x, y with
  | NaN, _ | _, NaN => NaN
  | Fin a, Fin b => Fin (a * b)
  | Fin a, PosInf | PosInf, Fin a =>
      match Qsgn a with Eq => NaN | Lt => PosInf | Gt => NegInf end
  | Fin a, NegInf | NegInf, Fin a =>
      match Qsgn a with Eq => NaN | Lt => NegInf | Gt => PosInf end
  | PosInf, PosInf | NegInf, NegInf => PosInf
  | PosInf, NegInf | NegInf, PosInf => NegInf
  end.

Definition num_div (x y : num) : num :=
  match x, y with
  | NaN, _ | _, NaN => NaN
  | Fin a, Fin b =>
      match Qsgn b with
      | Eq => match Qsgn a with Eq => NaN | Lt => PosInf | Gt => NegInf end
      | _ => Fin (a / b)
      end
  | Fin _, PosInf | Fin _, NegInf => Fin 0
  | PosInf, Fin b => match Qsgn b with Gt => NegInf | _ => PosInf end
  | NegInf, Fin b => match Qsgn b with Gt => PosInf | _ => NegInf end
  | _, _ => NaN
  end.

(** [0 <= x <= 1], for a finite [x]. *)
Definition in_unit (x : num) : Prop :=
  match x with
  | Fin q => (0 <= q /\ q <= 1)%Q
  | _ => False
  end.

Definition cell_in_unit (c : cell) : Prop :=
  match c with
  | CNum x => in_unit x
  | CStr _ => False
  end.

Section ToNumeric.
(** Python's parser of a numeric literal, as [pd.to_numeric] applies it to a
    text; [None] when the text is no number. *)
Variable parse_float : string -> option num.

(** [pd.to_numeric(_, errors="coerce")], cell by cell. *)
Definition to_numeric (c : cell) : num :=
  match c with
  | CNum x => x
  | CStr s => match parse_float s with Some x => x | None => NaN end
  end.
End ToNumeric.

(* ------------------------------------------------------------------ *)
(** ** Texts: [str.strip()] *)

(** The code points below 256 that [str.isspace] accepts. *)
Definition is_space (c : ascii) : bool :=
  let n := N_of_ascii c in
  (((9 <=? n) && (n <=? 13)) || ((28 <=? n) && (n <=? 32))
   || (n =? 133) || (n =? 160))%N.

Fixpoint lstrip (s : string) : string :=
  match s with
  | EmptyString => EmptyString
  | String c s' => if is_space c then lstrip s' else s
  end.

Fixpoint rstrip (s : string) : string :=
  match s with
  | EmptyString => EmptyString
  | String c s' =>
      match rstrip s' with
      | EmptyString => if is_space c then EmptyString else String c EmptyString
      | t => String c t
      end
  end.

Definition strip (s : string) : string := rstrip (lstrip s).

(** [Series.astype("string").str.strip()]: a missing text stays missing. *)
Definition str_strip (v : option string) : option string := option_map strip v.

(** [v.notna() & (v != "")] *)
Definition present (v : option string) : bool :=
  match v with
  | Some s => negb (s =? "")
  | None => false
  end.

(* ------------------------------------------------------------------ *)
(** ** Tables, exceptions, files *)

Record DataFrame (R : Type) : Type := mkDataFrame {
  columns : list string;
  rows : list R
}.

Definition has_column {R} (df : DataFrame R) (c : string) : bool :=
  existsb (String.eqb c) (columns df).

Inductive exn : Type :=
| FileNotFoundError (path : string)
| ValueError (context : string) (missing available : list string)
| LengthMismatch (expected got : nat)
| LibraryError (message : string).

Inductive result (A : Type) : Type :=
| Ok (a : A)
| Raised (e : exn).
Arguments Ok {A} a.
Arguments Raised {A} e.

Definition bind {A B} (r : result A) (f : A -> result B) : result B :=
  match r with
  | Ok a => f a
  | Raised e => Raised e
  end.

Declare Scope result_scope.
Delimit Scope result_scope with result.
Notation "x <- r ;; k" := (bind r (fun x => k))
  (at level 61, r at next level, right associativity) : result_scope.
Notation "r ;;; k" := (bind r (fun _ => k))
  (at level 61, right associativity) : result_scope.

(** One aircraft: a row of [fleet_enriched_v2.csv]. *)
Module Aircraft.
Record t : Type := mk {
  airline_name : option string;
  country : option string;
  region : option string;
  entry_year : cell;
  aircraft_type : option string;
  model_key : option string
}.
End Aircraft.

(** One airline: a row of the features, scores and clusters tables.  A field
    whose column is absent from the table's [columns] carries no meaning. *)
Module Airline.
Record t : Type := mk {
  airline_name : option string;
  country : option string;
  region : option string;
  avg_entry_year : num;
  modern_count_2015 : num;
  modern_count_2010 : num;
  diversity_score : cell;
  fleet_size : num;
  pct_modern_2015 : num;
  pct_modern_2010 : num;
  modernity_index : cell;
  new_gen_share : cell
}.

Definition set_modernity_index (v : cell) (r : t) : t :=
  mk (airline_name r) (country r) (region r) (avg_entry_year r)
     (modern_count_2015 r) (modern_count_2010 r) (diversity_score r)
     (fleet_size r) (pct_modern_2015 r) (pct_modern_2010 r) v
     (new_gen_share r).

Definition set_new_gen_share (v : cell) (r : t) : t :=
  mk (airline_name r) (country r) (region r) (avg_entry_year r)
     (modern_count_2015 r) (modern_count_2010 r) (diversity_score r)
     (fleet_size r) (pct_modern_2015 r) (pct_modern_2010 r)
     (modernity_index r) v.
End Airline.

(* ------------------------------------------------------------------ *)
(** ** The scikit-learn objects the pipeline stores *)

Definition vector : Type := list num.
Definition matrix : Type := list vector.

(** A fitted [StandardScaler]: its per-feature [mean_] and [scale_]. *)
Record Scaler : Type := mkScaler {
  mean_ : vector;
  scale_ : vector
}.

(** A fitted [KNeighborsClassifier]: the neighbour count and the reference
    points with their labels. *)
Record Knn : Type := mkKnn {
  n_neighbors : nat;
  fit_X : matrix;
  fit_y : list Z
}.

(** A row of [airlines_clusters.csv]. *)
Record Clustered : Type := mkClustered {
  airline : Airline.t;
  cluster : Z;
  pca_1 : num;
  pca_2 : num
}.

(** [elbow_data.json]: the dictionary [{"k": [...], "inertia": [...]}]. *)
Record Elbow : Type := mkElbow {
  elbow_k : list nat;
  elbow_inertia : list num
}.

(** [knn_metrics.json] *)
Record Metrics : Type := mkMetrics {
  accuracy : num;
  confusion_matrix : list (list Z)
}.

(** The files of [config.py] and of [data/out]; [None] is an absent file. *)
Record FileSystem : Type := mkFileSystem {
  DATA_FLEET_ENRICHED : option (DataFrame Aircraft.t);
  FILE_FEATURES : option (DataFrame Airline.t);
  FILE_SCORES : option (DataFrame Airline.t);
  FILE_CLUSTERS : option (DataFrame Clustered);
  scaler_pkl : option Scaler;
  knn_model_pkl : option Knn;
  elbow_data_json : option Elbow;
  knn_metrics_json : option Metrics
}.

Definition write_features (df : DataFrame Airline.t) (fs : FileSystem) : FileSystem :=
  mkFileSystem (DATA_FLEET_ENRICHED fs) (Some df) (FILE_SCORES fs)
    (FILE_CLUSTERS fs) (scaler_pkl fs) (knn_model_pkl fs)
    (elbow_data_json fs) (knn_metrics_json fs).

Definition write_scores (df : DataFrame Airline.t) (fs : FileSystem) : FileSystem :=
  mkFileSystem (DATA_FLEET_ENRICHED fs) (FILE_FEATURES fs) (Some df)
    (FILE_CLUSTERS fs) (scaler_pkl fs) (knn_model_pkl fs)
    (elbow_data_json fs) (knn_metrics_json fs).

Definition write_artifacts (df : DataFrame Clustered) (sc : Scaler) (knn : Knn)
    (el : Elbow) (m : Metrics) (fs : FileSystem) : FileSystem :=
  mkFileSystem (DATA_FLEET_ENRICHED fs) (FILE_FEATURES fs) (FILE_SCORES fs)
    (Some df) (Some sc) (Some knn) (Some el) (Some m).

(* ------------------------------------------------------------------ *)
(** ** 03_generate_features.py *)

Module GenerateFeatures.

(** [require_columns(df, cols, ctx)] *)
Definition require_columns {R} (df : DataFrame R) (cols : list string)
    (ctx : string) : result unit :=
  match filter (fun c => negb (has_column df c)) cols with
  | [] => Ok tt
  | missing => Raised (ValueError ctx missing (columns df))
  end.

(** Group keys in the order [groupby] lists them. *)
Fixpoint insert_key (k : string) (l : list string) : list string :=
  match l with
  | [] => [k]
  | h :: t => if String.leb k h then k :: l else h :: insert_key k t
  end.

Definition sort_keys (l : list string) : list string :=
  fold_right insert_key [] l.

(** The values that are not missing. *)
Definition dropna_text (l : list (option string)) : list string :=
  flat_map (fun v => match v with Some s => [s] | None => [] end) l.

(** The aggregation ["first"]: the first value that is not missing. *)
Definition first (l : list (option string)) : option string :=
  hd_error (dropna_text l).

(** The aggregation ["mean"]: missing values are skipped. *)
Definition mean (l : list num) : num :=
  match filter notna l with
  | [] => NaN
  | v => num_div (fold_left num_add v (Fin 0)) (of_nat (List.length v))
  end.

(** The aggregation ["sum"] of a 0/1 column. *)
Definition sum (l : list Z) : Z := fold_left Z.add l 0%Z.

(** [pd.Series.nunique]: the count of distinct values, missing ones apart. *)
Definition nunique (l : list (option string)) : nat :=
  List.length (nodup string_dec (dropna_text l)).

(** One row of [stats] before the merge with [fleet_size]. *)
Record Stats : Type := mkStats {
  key : string;
  first_country : option string;
  first_region : option string;
  mean_entry_year : num;
  sum_is_modern_2015 : Z;
  sum_is_modern_2010 : Z;
  nunique_diversity : option nat
}.

Section WithParser.
Variable parse_float : string -> option num.

(** Step 3 and the coercion of [entry_year]. *)
Definition clean (r : Aircraft.t) : Aircraft.t :=
  Aircraft.mk (str_strip (Aircraft.airline_name r))
              (str_strip (Aircraft.country r))
              (str_strip (Aircraft.region r))
              (CNum (to_numeric parse_float (Aircraft.entry_year r)))
              (Aircraft.aircraft_type r)
              (Aircraft.model_key r).

Definition year (r : Aircraft.t) : num :=
  to_numeric parse_float (Aircraft.entry_year r).

(** Step 4: [df.dropna(subset=["entry_year"])]. *)
Definition has_entry_year (r : Aircraft.t) : bool := notna (year r).

(** Option A: the rows with a country and a region. *)
Definition has_geo (r : Aircraft.t) : bool :=
  present (Aircraft.country r) && present (Aircraft.region r).

(** The table as it stands when step 5 starts. *)
Definition prepare (l : list Aircraft.t) : list Aircraft.t :=
  filter has_geo (filter has_entry_year (map clean l)).

(** Step 5 *)
Definition is_modern (threshold : Q) (r : Aircraft.t) : Z :=
  if num_geb (year r) threshold then 1%Z else 0%Z.

(** Step 6 *)
Definition diversity_col (df : DataFrame Aircraft.t)
    : option (Aircraft.t -> option string) :=
  if has_column df "aircraft_type" then Some Aircraft.aircraft_type
  else if has_column df "model_key" then Some Aircraft.model_key
  else None.

(** Step 7: [groupby("airline_name")]; rows without a name join no group. *)
Definition in_group (k : string) (r : Aircraft.t) : bool :=
  match Aircraft.airline_name r with
  | Some n => n =? k
  | None => false
  end.

Definition group_keys (l : list Aircraft.t) : list string :=
  sort_keys (nodup string_dec (dropna_text (map Aircraft.airline_name l))).

Definition groupby (l : list Aircraft.t) : list (string * list Aircraft.t) :=
  map (fun k => (k, filter (in_group k) l)) (group_keys l).

Definition agg (dc : option (Aircraft.t -> option string))
    (g : string * list Aircraft.t) : Stats :=
  let members := snd g in
  mkStats (fst g)
          (first (map Aircraft.country members))
          (first (map Aircraft.region members))
          (mean (map year members))
          (sum (map (is_modern 2015) members))
          (sum (map (is_modern 2010) members))
          (option_map (fun col => nunique (map col members)) dc).

(** [df.groupby("airline_name").size().reset_index(name="fleet_size")] *)
Definition group_sizes (l : list Aircraft.t) : list (string * nat) :=
  map (fun g => (fst g, List.length (snd g))) (groupby l).

(** [stats.merge(fleet_size, on="airline_name", how="left")] *)
Definition merge_left (stats : list Stats) (sizes : list (string * nat))
    : list (Stats * num) :=
  flat_map
    (fun s =>
       match filter (fun kv => fst kv =? key s) sizes with
       | [] => [(s, NaN)]
       | ms => map (fun kv => (s, of_nat (snd kv))) ms
       end)
    stats.

(** Steps 8 and 9: the renamed columns, the percentages and the index. *)
Definition pct (count : Z) (fleet_size : num) : num :=
  num_mul (num_div (of_Z count) (replace 0 1 fleet_size)) (Fin 100).

Definition finish (sf : Stats * num) : Airline.t :=
  let (s, fleet_size) := sf in
  let pct_modern_2015 := pct (sum_is_modern_2015 s) fleet_size in
  let pct_modern_2010 := pct (sum_is_modern_2010 s) fleet_size in
  Airline.mk (Some (key s)) (first_country s) (first_region s)
    (mean_entry_year s)
    (of_Z (sum_is_modern_2015 s)) (of_Z (sum_is_modern_2010 s))
    (match nunique_diversity s with
     | Some n => CNum (of_nat n)
     | None => CNum (Fin 0)
     end)
    fleet_size pct_modern_2015 pct_modern_2010
    (CNum (clip 0 1 (num_div pct_modern_2015 (Fin 100))))
    (CNum NaN).

(** The feature row of one group: its statistics and its size. *)
Definition row_of_group (dc : option (Aircraft.t -> option string))
    (g : string * list Aircraft.t) : Airline.t :=
  finish (agg dc g, of_nat (List.length (snd g))).

Definition features_columns (with_diversity : bool) : list string :=
  ["airline_name"; "country"; "region"; "avg_entry_year";
   "modern_count_2015"; "modern_count_2010"]
  ++ (if with_diversity then ["diversity_score"; "fleet_size"]
      else ["fleet_size"; "diversity_score"])
  ++ ["pct_modern_2015"; "pct_modern_2010"; "modernity_index"].

(** Steps 3 to 9 on the table read from [FLEET_ENRICHED]. *)
Definition build_stats (df : DataFrame Aircraft.t) : DataFrame Airline.t :=
  let l := prepare (rows df) in
  let dc := diversity_col df in
  let stats := map (agg dc) (groupby l) in
  mkDataFrame
    (features_columns (match dc with Some _ => true | None => false end))
    (map finish (merge_left stats (group_sizes l))).

Definition main (fs : FileSystem) : result FileSystem :=
  match DATA_FLEET_ENRICHED fs with
  | None => Raised (FileNotFoundError "data/processed/fleet_enriched_v2.csv")
  | Some df =>
      (require_columns df
         ["airline_name"; "country"; "region"; "entry_year"]
         "fleet_enriched" ;;;
       Ok (write_features (build_stats df) fs))%result
  end.
End WithParser.

End GenerateFeatures.

(* ------------------------------------------------------------------ *)
(** ** 04_build_scores.py *)

Module BuildScores.
Section WithParser.
Variable parse_float : string -> option num.

(** The fleet filter: [df["fleet_size"] >= config.MIN_FLEET_SIZE]. *)
Definition large_enough (r : Airline.t) : bool :=
  num_geb (Airline.fleet_size r) (inject_Z Config.MIN_FLEET_SIZE).

(** [pd.to_numeric(..., errors="coerce").fillna(0).clip(0, 1)] *)
Definition clamp (c : cell) : cell :=
  CNum (clip 0 1 (fillna 0 (to_numeric parse_float c))).

Definition sanitize (r : Airline.t) : Airline.t :=
  Airline.set_modernity_index (clamp (Airline.modernity_index r)) r.

Definition build_scores (df : DataFrame Airline.t) : DataFrame Airline.t :=
  mkDataFrame (columns df) (map sanitize (filter large_enough (rows df))).

Definition main (fs : FileSystem) : result FileSystem :=
  match FILE_FEATURES fs with
  | None => Raised (FileNotFoundError "data/processed/airlines_features.csv")
  | Some df =>
      match filter (fun c => negb (has_column df c))
                   ["fleet_size"; "modernity_index"] with
      | [] => Ok (write_scores (build_scores df) fs)
      | missing => Raised (ValueError "FILE_FEATURES" missing (columns df))
      end
  end.
End WithParser.
End BuildScores.

(* ------------------------------------------------------------------ *)
(** ** The persisted models at inference time *)

Module Inference.

Definition num_sub (x y : num) : num := num_add x (num_opp y).

(** [x <= y]; a comparison with NaN is false. *)
Definition num_leb (x y : num) : bool :=
  match x, y with
  | NaN, _ | _, NaN => false
  | NegInf, _ | _, PosInf => true
  | Fin a, Fin b => Qle_bool a b
  | _, _ => false
  end.

(** Modelled from the spec: the Scaler's transform of one feature vector
    (scikit-learn's [StandardScaler.transform], whose code is not in the
    repository), [(x - mean) / scale] feature by feature with the persisted
    parameters; a scale of zero never divides. *)
Fixpoint standardize (x mean scale : vector) : vector :=
  match x, mean, scale with
  | xi :: x', m :: mean', s :: scale' =>
      num_div (num_sub xi m) (replace 0 1 s) :: standardize x' mean' scale'
  | _, _, _ => []
  end.

Definition transform (sc : Scaler) (x : vector) : vector :=
  standardize x (mean_ sc) (scale_ sc).

(** The square of the Euclidean distance: it orders points as the distance
    does. *)
Fixpoint sq_dist (x y : vector) : num :=
  match x, y with
  | xi :: x', yi :: y' =>
      num_add (num_mul (num_sub xi yi) (num_sub xi yi)) (sq_dist x' y')
  | _, _ => Fin 0
  end.

(** Reference points by increasing distance; points at the same distance keep
    the order of the training table. *)
Fixpoint insert_by_distance (p : num * Z) (l : list (num * Z))
    : list (num * Z) :=
  match l with
  | [] => [p]
  | h :: t => if num_leb (fst p) (fst h) then p :: l
              else h :: insert_by_distance p t
  end.

Definition by_distance (l : list (num * Z)) : list (num * Z) :=
  fold_right insert_by_distance [] l.

(** The labels of the [k] reference points nearest to [x]. *)
Definition neighbors (knn : Knn) (x : vector) : list Z :=
  map snd
    (firstn (n_neighbors knn)
       (by_distance
          (map (fun py => (sq_dist x (fst py), snd py))
               (combine (fit_X knn) (fit_y knn))))).

Definition votes (ballot : list Z) (l : Z) : nat := count_occ Z.eq_dec ballot l.

(** The better of two labels: more votes, and the smaller label at a tie. *)
Definition better (ballot : list Z) (a b : Z) : Z :=
  if (votes ballot b <? votes ballot a)%nat
     || ((votes ballot a =? votes ballot b)%nat && (a <=? b)%Z)
  then a else b.

Definition majority (ballot : list Z) : option Z :=
  match ballot with
  | [] => None
  | l :: t => Some (fold_left (better ballot) t l)
  end.

(** Modelled from the spec: the SurrogateClassifier's answer for one
    standardized vector (scikit-learn's [KNeighborsClassifier.predict], whose
    code is not in the repository): the majority label among the
    [n_neighbors] reference points nearest in Euclidean distance.  [None]
    when there are fewer reference points than neighbours asked for. *)
Definition predict (knn : Knn) (x : vector) : option Z :=
  if (List.length (combine (fit_X knn) (fit_y knn)) <? n_neighbors knn)%nat
  then None
  else majority (neighbors knn x).

End Inference.

(* ------------------------------------------------------------------ *)
(** ** 05_clustering.py *)

Module Clustering.

(** A fitted [KMeans]: what the script reads from it. *)
Record KMeans : Type := mkKMeans {
  labels_ : list Z;
  inertia_ : num
}.

(** The four arrays [train_test_split] returns. *)
Record Split : Type := mkSplit {
  X_train : matrix;
  X_test : matrix;
  y_train : list Z;
  y_test : list Z
}.

(** The calls the script makes into scikit-learn, with the arguments it
    passes; the index is the type of the value that comes back.
    [KMeans(...).fit_predict(X)] is the fit followed by a read of [labels_];
    [PCA(n_components=2)] returns two coordinates per row. *)
Inductive sklearn : Type -> Type :=
| StandardScaler_fit_transform (X : matrix) : sklearn (Scaler * matrix)
| KMeans_fit (n_clusters : nat) (random_state : option Z) (n_init : nat)
    (X : matrix) : sklearn KMeans
| train_test_split (X : matrix) (y : list Z) (test_size : Q)
    (random_state : option Z) (stratify : option (list Z)) : sklearn Split
| KNeighborsClassifier_fit (n_neighbors : nat) (X : matrix) (y : list Z)
    : sklearn Knn
| KNeighborsClassifier_predict (knn : Knn) (X : matrix) : sklearn (list Z)
| accuracy_score (y_true y_pred : list Z) : sklearn num
| sk_confusion_matrix (y_true y_pred : list Z) : sklearn (list (list Z))
| PCA_fit_transform (n_components : nat) (random_state : option Z)
    (X : matrix) : sklearn (list (num * num)).

(** A run of the script: it returns, raises, or calls the library and goes
    on with the answer. *)
Inductive prog (A : Type) : Type :=
| Ret (a : A)
| Throw (e : exn)
| Call (R : Type) (c : sklearn R) (k : R -> prog A).
Arguments Ret {A} a.
Arguments Throw {A} e.
Arguments Call {A R} c k.

Fixpoint pbind {A B} (p : prog A) (f : A -> prog B) : prog B :=
  match p with
  | Ret a => f a
  | Throw e => Throw e
  | Call c k => Call c (fun r => pbind (k r) f)
  end.

Definition call {R} (c : sklearn R) : prog R := Call c Ret.

Definition lift {A} (r : result A) : prog A :=
  match r with
  | Ok a => Ret a
  | Raised e => Throw e
  end.

Declare Scope prog_scope.
Delimit Scope prog_scope with prog.
Notation "x <- p ;; k" := (pbind p (fun x => k))
  (at level 61, p at next level, right associativity) : prog_scope.
Notation "p ;;; k" := (pbind p (fun _ => k))
  (at level 61, right associativity) : prog_scope.

(** The library: it answers a call or raises, and may read and change the
    state [W] of the process around it (the global random generator). *)
Definition handler (W : Type) : Type :=
  forall R : Type, sklearn R -> W -> result R * W.

Fixpoint interp {W A} (h : handler W) (p : prog A) (w : W) : result A * W :=
  match p with
  | Ret a => (Ok a, w)
  | Throw e => (Raised e, w)
  | Call c k =>
      match h _ c w with
      | (Ok r, w') => interp h (k r) w'
      | (Raised e, w') => (Raised e, w')
      end
  end.

(** The run [p] comes to make the call [c], for some answers of the library
    to the calls before it. *)
Inductive reaches {A} : prog A -> forall R, sklearn R -> Prop :=
| reaches_now R (c : sklearn R) k : reaches (Call c k) c
| reaches_later R (c : sklearn R) k r R' (c' : sklearn R') :
    reaches (k r) c' -> reaches (Call c k) c'.

(** The call draws no random number, or draws them from a generator seeded
    by an explicit [random_state]. *)
Definition seeded {R} (c : sklearn R) : bool :=
  match c with
  | KMeans_fit _ rs _ _ => if rs is Some _ then true else false
  | train_test_split _ _ _ rs _ => if rs is Some _ then true else false
  | PCA_fit_transform _ rs _ => if rs is Some _ then true else false
  | _ => true
  end.

Inductive all_seeded {A} : prog A -> Prop :=
| seeded_Ret a : all_seeded (Ret a)
| seeded_Throw e : all_seeded (Throw e)
| seeded_Call R (c : sklearn R) k :
    seeded c = true -> (forall r, all_seeded (k r)) -> all_seeded (Call c k).

(** A library whose answer to a seeded call does not depend on the state of
    the process around it. *)
Definition reproducible {W} (h : handler W) : Prop :=
  forall R (c : sklearn R) w1 w2,
    seeded c = true -> fst (h R c w1) = fst (h R c w2).

(** A library that fits what it says: the standardized matrix is the
    transform of the input by the returned scaler, and the fitted classifier
    holds the neighbour count and the training arrays it was given. *)
Definition faithful {W} (h : handler W) : Prop :=
  (forall X w sc Xs w',
      h _ (StandardScaler_fit_transform X) w = (Ok (sc, Xs), w') ->
      Xs = map (Inference.transform sc) X)
  /\ (forall n X y w knn w',
         h _ (KNeighborsClassifier_fit n X y) w = (Ok knn, w') ->
         knn = mkKnn n X y).

(** [ensure_required_cols(df, cols)] *)
Definition ensure_required_cols {R} (df : DataFrame R) (cols : list string)
    : result unit :=
  match filter (fun c => negb (has_column df c)) cols with
  | [] => Ok tt
  | missing => Raised (ValueError "FILE_SCORES" missing [])
  end.

(** The column names after [df[name] = values]: an existing column is
    overwritten where it stands, a new one is added at the end. *)
Definition assign_column (name : string) (cols : list string) : list string :=
  if existsb (String.eqb name) cols then cols else (cols ++ [name])%list.

(** [df[name] = values] on the rows: the lengths must agree. *)
Definition assign {R V S} (f : R -> V -> S) (l : list R) (values : list V)
    : result (list S) :=
  if (List.length values =? List.length l)%nat
  then Ok (map (fun rv => f (fst rv) (snd rv)) (combine l values))
  else Raised (LengthMismatch (List.length l) (List.length values)).

Definition random_state : Z := 42.

(** The loop of the elbow curve over the values of [k] still to visit. *)
Fixpoint elbow (ks : list nat) (X_scaled : matrix) (inertia : Elbow)
    : prog Elbow :=
  match ks with
  | [] => Ret inertia
  | k :: ks' =>
      (km <- call (KMeans_fit k (Some random_state) 10 X_scaled) ;;
       elbow ks' X_scaled
         (mkElbow (elbow_k inertia ++ [k])
                  (elbow_inertia inertia ++ [inertia_ km])))%prog
  end.

(** [v] is the [inertia_] the library returned for [k] clusters on [X], with
    the seed and the restarts of the script. *)
Definition fitted_inertia {W} (h : handler W) (X : matrix) (k : nat) (v : num)
    : Prop :=
  exists w1 w2 km,
    h _ (KMeans_fit k (Some random_state) 10 X) w1 = (Ok km, w2)
    /\ v = inertia_ km.

Section WithParser.
Variable parse_float : string -> option num.

(** The security filter, the same test as in step 4. *)
Definition large_enough (r : Airline.t) : bool :=
  num_geb (Airline.fleet_size r) (inject_Z Config.MIN_FLEET_SIZE).

(** [df["new_gen_share"] = df["modernity_index"]] when the column is absent. *)
Definition with_new_gen_share (df : DataFrame Airline.t) : DataFrame Airline.t :=
  if has_column df "new_gen_share" then df
  else mkDataFrame
         (columns df ++ ["new_gen_share"])
         (map (fun r => Airline.set_new_gen_share (Airline.modernity_index r) r)
              (rows df)).

(** [pd.to_numeric(errors="coerce")] then [fillna(0)], on one cell. *)
Definition numeric (c : cell) : num :=
  fillna 0 (to_numeric parse_float c).

(** The row of [X] for an airline: the four features, in order. *)
Definition features (r : Airline.t) : vector :=
  [numeric (CNum (Airline.fleet_size r));
   numeric (Airline.diversity_score r);
   numeric (Airline.modernity_index r);
   numeric (Airline.new_gen_share r)].

Definition with_cluster (r : Airline.t) (c : Z) : Airline.t * Z := (r, c).

Definition with_pca (rc : Airline.t * Z) (p : num * num) : Clustered :=
  mkClustered (fst rc) (snd rc) (fst p) (snd p).

(** The body of [run] once the scores table is read. *)
Definition cluster_scores (df : DataFrame Airline.t) (fs : FileSystem)
    : prog FileSystem :=
  (lift (ensure_required_cols df
           ["fleet_size"; "diversity_score"; "modernity_index"]) ;;;
   let df := with_new_gen_share df in
   let df_clean := filter large_enough (rows df) in
   let X := map features df_clean in
   fitted <- call (StandardScaler_fit_transform X) ;;
   let scaler := fst fitted in
   let X_scaled := snd fitted in
   kmeans <- call (KMeans_fit 4 (Some random_state) 10 X_scaled) ;;
   let clusters := labels_ kmeans in
   labelled <- lift (assign with_cluster df_clean clusters) ;;
   inertia <- elbow (seq 1 9) X_scaled (mkElbow [] []) ;;
   let y := clusters in
   split <- call (train_test_split X_scaled y (2 # 10)
                    (Some random_state) (Some y)) ;;
   knn <- call (KNeighborsClassifier_fit 5 (X_train split) (y_train split)) ;;
   y_pred <- call (KNeighborsClassifier_predict knn (X_test split)) ;;
   acc <- call (accuracy_score (y_test split) y_pred) ;;
   cm <- call (sk_confusion_matrix (y_test split) y_pred) ;;
   let metrics := mkMetrics acc cm in
   comps <- call (PCA_fit_transform 2 (Some random_state) X_scaled) ;;
   projected <- lift (assign with_pca labelled comps) ;;
   Ret (write_artifacts
          (mkDataFrame
             (assign_column "pca_2"
                (assign_column "pca_1" (assign_column "cluster" (columns df))))
             projected)
          scaler knn inertia metrics fs))%prog.

(** [run()]: a missing scores file is reported on the console and the
    function returns. *)
Definition run (fs : FileSystem) : prog FileSystem :=
  match FILE_SCORES fs with
  | None => Ret fs
  | Some df => cluster_scores df fs
  end.
End WithParser.

End Clustering.

(* ------------------------------------------------------------------ *)
(** ** main.py *)

Module Main.
Import Clustering.

(** The last line [main.py] prints: the end of the processing, or the
    exception it caught. *)
Inductive Outcome : Type :=
| Finished
| Failed (e : exn).

Section WithParser.
Variable parse_float : string -> option num.

(** The three steps inside the [try] block, in order. *)
Definition steps (fs : FileSystem) : prog FileSystem :=
  (fs1 <- lift (GenerateFeatures.main parse_float fs) ;;
   fs2 <- lift (BuildScores.main parse_float fs1) ;;
   Clustering.run parse_float fs2)%prog.

(** The [__main__] block: [run_step] resolves the three names to
    [03.main], [04.main] and [05.run]; an exception of a step is caught and
    printed, and the files stay as the last finished step left them (every
    step writes its files at its end). *)
Definition main {W} (h : handler W) (fs : FileSystem) (w : W)
    : FileSystem * Outcome * W :=
  match GenerateFeatures.main parse_float fs with
  | Raised e => (fs, Failed e, w)
  | Ok fs1 =>
      match BuildScores.main parse_float fs1 with
      | Raised e => (fs1, Failed e, w)
      | Ok fs2 =>
          match interp h (Clustering.run parse_float fs2) w with
          | (Raised e, w') => (fs2, Failed e, w')
          | (Ok fs3, w') => (fs3, Finished, w')
          end
      end
  end.
End WithParser.
End Main.

(* ------------------------------------------------------------------ *)
(** ** app.py: loading the artifacts *)

Module App.

(** [load_all_data()]: the clusters table, the elbow record, the metrics, the
    classifier and the scaler, read in this order; [None] stands for the five
    [None] returned when a file is not found. *)
Definition load_all_data (fs : FileSystem)
    : option (DataFrame Clustered * Elbow * Metrics * Knn * Scaler) :=
  match FILE_CLUSTERS fs with
  | None => None
  | Some df =>
      match elbow_data_json fs with
      | None => None
      | Some elbow =>
          match knn_metrics_json fs with
          | None => None
          | Some knn_metrics =>
              match knn_model_pkl fs with
              | None => None
              | Some model =>
                  match scaler_pkl fs with
                  | None => None
                  | Some scaler => Some (df, elbow, knn_metrics, model, scaler)
                  end
              end
          end
      end
  end.

End App.

(* ------------------------------------------------------------------ *)
(** ** The vocabulary of the statements *)

Module Reading.
Section WithParser.
Variable parse_float : string -> option num.

(** A raw aircraft row passes the drops of steps 4 and "Option A": its
    [entry_year] is a number, its country and its region are present once
    stripped. *)
Definition survives (r : Aircraft.t) : bool :=
  notna (to_numeric parse_float (Aircraft.entry_year r))
  && present (str_strip (Aircraft.country r))
  && present (str_strip (Aircraft.region r)).

(** The stripped name of a raw row is [X]. *)
Definition named (X : string) (r : Aircraft.t) : bool :=
  match Aircraft.airline_name r with
  | Some n => strip n =? X
  | None => false
  end.

Definition fleet_count (X : string) (l : list Aircraft.t) : nat :=
  List.length (filter (fun r => survives r && named X r) l).

(** The drop as the specification words it: region and [entry_year] only. *)
Definition survives_region_year (r : Aircraft.t) : bool :=
  notna (to_numeric parse_float (Aircraft.entry_year r))
  && present (str_strip (Aircraft.region r)).

(** [airline_name == X], on the name as provided. *)
Definition named_exactly (X : string) (r : Aircraft.t) : bool :=
  match Aircraft.airline_name r with
  | Some n => n =? X
  | None => false
  end.

Definition fleet_count_as_stated (X : string) (l : list Aircraft.t) : nat :=
  List.length (filter (fun r => survives_region_year r && named_exactly X r) l).

(** The raw row [r] is one of the rows the feature row [a] is computed from. *)
Definition aggregated_into (df : DataFrame Aircraft.t) (r : Aircraft.t)
    (a : Airline.t) : Prop :=
  exists g,
    In g (GenerateFeatures.groupby
            (GenerateFeatures.prepare parse_float (rows df)))
    /\ In (GenerateFeatures.clean parse_float r) (snd g)
    /\ a = GenerateFeatures.row_of_group parse_float
             (GenerateFeatures.diversity_col df) g.

Definition grouped_together (df : DataFrame Aircraft.t) (r1 r2 : Aircraft.t)
    : Prop :=
  exists a,
    In a (rows (GenerateFeatures.build_stats parse_float df))
    /\ aggregated_into df r1 a /\ aggregated_into df r2 a.

End WithParser.

(** [x >= t] as a proposition. *)
Definition at_least (t : Q) (x : num) : Prop :=
  match x with
  | Fin q => (t <= q)%Q
  | PosInf => True
  | NegInf | NaN => False
  end.

(** [x > t] as a proposition. *)
Definition above (t : Q) (x : num) : Prop :=
  match x with
  | Fin q => (t < q)%Q
  | PosInf => True
  | NegInf | NaN => False
  end.

Definition index_in_unit (a : Airline.t) : Prop :=
  cell_in_unit (Airline.modernity_index a).

(** Every row of the three tables, where written, has its index in [0, 1]. *)
Definition tables_in_unit (fs : FileSystem) : Prop :=
  match FILE_FEATURES fs with
  | Some d => Forall index_in_unit (rows d)
  | None => True
  end
  /\ match FILE_SCORES fs with
     | Some d => Forall index_in_unit (rows d)
     | None => True
     end
  /\ match FILE_CLUSTERS fs with
     | Some d => Forall (fun c => index_in_unit (airline c)) (rows d)
     | None => True
     end.

(** For the examples: every cell is a number already, no text is parsed. *)
Definition no_text (s : string) : option num := None.

(** The first row of the input, in file order, that passes the drops and
    whose stripped name is [X]. *)
Definition first_survivor (parse_float : string -> option num) (X : string)
    (l : list Aircraft.t) : option Aircraft.t :=
  find (fun r => survives parse_float r && named X r) l.

(** The names of a table go up from row to row. *)
Definition sorted_by_name (l : list Airline.t) : Prop :=
  forall i a b,
    nth_error l i = Some a -> nth_error l (S i) = Some b ->
    exists x y,
      Airline.airline_name a = Some x /\ Airline.airline_name b = Some y
      /\ String.ltb x y = true.

(** [l] is the most voted label of the ballot, and the smallest of the most
    voted when several tie. *)
Definition most_voted (ballot : list Z) (l : Z) : Prop :=
  In l ballot
  /\ (forall a, (Inference.votes ballot a <= Inference.votes ballot l)%nat)
  /\ (forall a, Inference.votes ballot a = Inference.votes ballot l ->
                (l <= a)%Z).

(** The columns a table must have for a step to start. *)
Definition has_columns {R} (df : DataFrame R) (cols : list string) : Prop :=
  forall c, In c cols -> In c (columns df).

End Reading.

(* ------------------------------------------------------------------ *)
(** ** Sample tables *)

Module Sample.
Import Reading.

Definition fleet_columns : list string :=
  ["airline_name"; "country"; "region"; "entry_year"; "aircraft_type"].

Definition aircraft (name : string) (country : option string) (year : Z)
    (type : string) : Aircraft.t :=
  Aircraft.mk (Some name) country (Some "Europe") (CNum (of_Z year))
    (Some type) None.

(** Two aircraft of one airline; the first has no country. *)
Definition fleet_without_country : DataFrame Aircraft.t :=
  mkDataFrame fleet_columns
    [aircraft "Air X" None 2016 "A320";
     aircraft "Air X" (Some "France") 2012 "B737"].

(** Two aircraft whose airline names differ by a leading blank. *)
Definition fleet_with_blank : DataFrame Aircraft.t :=
  mkDataFrame fleet_columns
    [aircraft "Air X" (Some "France") 2016 "A320";
     aircraft " Air X" (Some "France") 2012 "B737"].

(** The same table without the aircraft that lacks a country. *)
Definition fleet_with_country : DataFrame Aircraft.t :=
  mkDataFrame fleet_columns [aircraft "Air X" (Some "France") 2012 "B737"].

(** A row of the features table with the given name, fleet size, diversity
    and index. *)
Definition airline (name : string) (fleet diversity : Z) (index : cell)
    : Airline.t :=
  Airline.mk (Some name) (Some "France") (Some "Europe") (Fin 2012)
    (Fin 0) (Fin 0) (CNum (of_Z diversity)) (of_Z fleet) (Fin 0) (Fin 0)
    index (CNum NaN).

Definition features_columns : list string :=
  GenerateFeatures.features_columns true.

(** Twenty airlines; two of them are below the threshold of five aircraft,
    one carries an index of 120 %, one an index that is no number. *)
Definition twenty_airlines : DataFrame Airline.t :=
  mkDataFrame features_columns
    (map (fun nf => airline (fst nf) (snd nf) 1 (CNum (Fin (1 # 2))))
         [("A01", 3); ("A02", 4); ("A03", 5); ("A04", 5); ("A05", 6);
          ("A06", 7); ("A07", 8); ("A08", 9); ("A09", 10); ("A10", 12);
          ("A11", 15); ("A12", 20); ("A13", 25); ("A14", 30); ("A15", 40);
          ("A16", 50); ("A17", 60); ("A18", 80)]%Z
     ++ [airline "A19" 100 1 (CNum (Fin (12 # 10)));
         airline "A20" 120 1 (CStr "n/a")]).

Definition files_with_features (df : DataFrame Airline.t) : FileSystem :=
  mkFileSystem None (Some df) None None None None None None.

Definition files_with_scores (df : DataFrame Airline.t) : FileSystem :=
  mkFileSystem None None (Some df) None None None None None.

(** Three airlines with the same features: fewer rows than clusters. *)
Definition three_airlines : DataFrame Airline.t :=
  mkDataFrame features_columns
    [airline "T1" 5 1 (CNum (Fin 0)); airline "T2" 5 1 (CNum (Fin 0));
     airline "T3" 5 1 (CNum (Fin 0))].

(** What [StandardScaler] fits on them: every column is constant. *)
Definition three_scaler : Scaler :=
  mkScaler [Fin 5; Fin 1; Fin 0; Fin 0] [Fin 1; Fin 1; Fin 1; Fin 1].

Definition three_X : matrix :=
  [[Fin 5; Fin 1; Fin 0; Fin 0]; [Fin 5; Fin 1; Fin 0; Fin 0];
   [Fin 5; Fin 1; Fin 0; Fin 0]].

Definition three_X_scaled : matrix :=
  map (Inference.transform three_scaler) three_X.

(** A scores table with its columns and no row. *)
Definition no_airlines : DataFrame Airline.t := mkDataFrame features_columns [].

(** Sixteen airlines with four distinct feature vectors: two fleets of 5
    aircraft, ten of 7, two of 17 and two of 23; the other features are
    constant. *)
Definition sixteen_fleets : list Z :=
  [5; 5; 7; 7; 7; 7; 7; 7; 7; 7; 7; 7; 17; 17; 23; 23]%Z.

Definition sixteen_airlines : DataFrame Airline.t :=
  mkDataFrame features_columns
    (map (fun f => airline "S" f 1 (CNum (Fin 0))) sixteen_fleets).

Definition sixteen_X : matrix :=
  map (fun f => [of_Z f; Fin 1; Fin 0; Fin 0]) sixteen_fleets.

(** The mean of the fleet sizes is 10 and their standard deviation is 6; a
    constant column keeps a scale of 1. *)
Definition sixteen_scaler : Scaler :=
  mkScaler [Fin 10; Fin 1; Fin 0; Fin 0] [Fin 6; Fin 1; Fin 1; Fin 1].

Definition sixteen_X_scaled : matrix :=
  map (Inference.transform sixteen_scaler) sixteen_X.

(** Equality of numbers, of vectors and of matrices as a test. *)
Definition num_eqb (x y : num) : bool :=
  match x, y with
  | Fin a, Fin b => Qeq_bool a b
  | PosInf, PosInf | NegInf, NegInf | NaN, NaN => true
  | _, _ => false
  end.

Fixpoint list_eqb {A} (eqb : A -> A -> bool) (l1 l2 : list A) : bool :=
  match l1, l2 with
  | [], [] => true
  | a :: l1', b :: l2' => eqb a b && list_eqb eqb l1' l2'
  | _, _ => false
  end.

Definition matrix_eqb : matrix -> matrix -> bool := list_eqb (list_eqb num_eqb).

(** The mean and the variance of a list of numbers, and a column of a
    matrix. *)
Definition mean_of (l : list num) : num :=
  num_div (fold_left num_add l (Fin 0)) (of_nat (List.length l)).

Definition variance_of (l : list num) : num :=
  mean_of (map (fun x => num_mul (Inference.num_sub x (mean_of l))
                                 (Inference.num_sub x (mean_of l))) l).

Definition column (j : nat) (X : matrix) : list num :=
  map (fun x => nth j x NaN) X.

(** Inertia, as the glossary has it: the sum of the squared distances from
    each point to the centroid of its cluster, the mean of the points that
    carry its label. *)
Definition centroid (members : matrix) : vector :=
  map (fun j => mean_of (column j members)) (seq 0 (List.length (hd [] members))).

Definition members_of (X : matrix) (labels : list Z) (c : Z) : matrix :=
  map fst (filter (fun xl => (snd xl =? c)%Z) (combine X labels)).

Definition inertia_of (X : matrix) (labels : list Z) : num :=
  fold_left num_add
    (map (fun xl => Inference.sq_dist (fst xl)
                      (centroid (members_of X labels (snd xl))))
         (combine X labels))
    (Fin 0).

(** The partition in [k] groups of least inertia, for the sixteen airlines:
    one label per distinct fleet size (5, 7, 17, 23), and the inertia. *)
Definition sixteen_partition (k : nat) : list Z * num :=
  match k with
  | 1%nat => ([0; 0; 0; 0]%Z, Fin 16)
  | 2%nat => ([0; 0; 1; 1]%Z, Fin (32 # 27))
  | 3%nat => ([0; 0; 1; 2]%Z, Fin (5 # 27))
  | _ => ([0; 1; 2; 3]%Z, Fin 0)
  end.

Definition group_of_fleet (f : Z) : nat :=
  if (f =? 5)%Z then 0 else if (f =? 7)%Z then 1
  else if (f =? 17)%Z then 2 else 3.

(** The labels of the sixteen rows when the four groups are numbered
    [numbering]. *)
Definition sixteen_labels (numbering : list Z) : list Z :=
  map (fun f => nth (group_of_fleet f) numbering 0%Z) sixteen_fleets.

(** [l] without the positions listed in [test]; and those positions. *)
Definition train_part {A} (test : list nat) (l : list A) : list A :=
  map snd (filter (fun ix => negb (existsb (Nat.eqb (fst ix)) test))
                  (combine (seq 0 (List.length l)) l)).

Definition test_part {A} (test : list nat) (l : list A) : list A :=
  map snd (filter (fun ix => existsb (Nat.eqb (fst ix)) test)
                  (combine (seq 0 (List.length l)) l)).

(** The sublists of [l] with [k] elements. *)
Fixpoint subsets {A} (k : nat) (l : list A) : list (list A) :=
  match k, l with
  | O, _ => [[]]
  | S _, [] => []
  | S k', a :: l' => (map (cons a) (subsets k' l') ++ subsets k l')%list
  end.

(** The lists obtained by inserting [a] somewhere in [l]. *)
Fixpoint insertions {A} (a : A) (l : list A) : list (list A) :=
  match l with
  | [] => [[a]]
  | b :: l' => (a :: l) :: map (cons b) (insertions a l')
  end.

Fixpoint permutations {A} (l : list A) : list (list A) :=
  match l with
  | [] => [[]]
  | a :: l' => flat_map (insertions a) (permutations l')
  end.

(** The answer of the classifier fitted on the rows outside [test], when the
    four groups are numbered [numbering], for the first of the sixteen rows. *)
Definition first_row_round_trip (test : list nat) (numbering : list Z)
    : option Z :=
  Inference.predict
    (mkKnn 5 (train_part test sixteen_X_scaled)
             (train_part test (sixteen_labels numbering)))
    (Inference.transform sixteen_scaler (hd [] sixteen_X)).

Definition misses_first_row (test : list nat) (numbering : list Z) : bool :=
  match first_row_round_trip test numbering with
  | Some l => negb (l =? hd 0%Z (sixteen_labels numbering))%Z
  | None => true
  end.

(** A stratified test part of four rows: one fleet of 5, two of 7, one of 17. *)
Definition sixteen_test : list nat := [1; 5; 9; 13]%nat.

(** The share of positions where the two label lists agree. *)
Definition accuracy_of (y_true y_pred : list Z) : num :=
  num_div
    (of_nat (List.length (filter (fun tp => (fst tp =? snd tp)%Z)
                                 (combine y_true y_pred))))
    (of_nat (List.length y_true)).

(** The labels present, sorted, and the count of every (true, predicted)
    pair of them. *)
Fixpoint insert_label (l : Z) (ls : list Z) : list Z :=
  match ls with
  | [] => [l]
  | h :: t => if (l <? h)%Z then l :: ls
              else if (l =? h)%Z then ls else h :: insert_label l t
  end.

Definition confusion_of (y_true y_pred : list Z) : list (list Z) :=
  let labels := fold_right insert_label [] (y_true ++ y_pred) in
  map (fun t =>
         map (fun p =>
                Z.of_nat (List.length
                            (filter (fun tp => (fst tp =? t)%Z && (snd tp =? p)%Z)
                                    (combine y_true y_pred))))
             labels)
      labels.

(** Modelled from the spec: scikit-learn is not repository code; these are
    its answers to the calls of a run on the sixteen airlines, for a given
    choice of the test rows: the scaler of mean 10 and scale 6, the
    partitions of least inertia, a classifier that stores its training arrays
    and votes among five neighbours, the share of right answers, the counts
    per pair of labels, and the projection of rows that vary along one axis
    only.  The state counts the calls; no answer reads it.  A call that is
    not one of that run is refused. *)
Definition transcript (test : list nat) : Clustering.handler nat :=
  fun R c =>
    match c in Clustering.sklearn R0 return nat -> result R0 * nat with
    | Clustering.StandardScaler_fit_transform X => fun w =>
        (if matrix_eqb X sixteen_X
         then Ok (sixteen_scaler, map (Inference.transform sixteen_scaler) X)
         else Raised (LibraryError "not in the transcript"), S w)
    | Clustering.KMeans_fit k _ _ X => fun w =>
        (if matrix_eqb X sixteen_X_scaled && (1 <=? k)%nat
         then Ok (Clustering.mkKMeans
                    (sixteen_labels (fst (sixteen_partition k)))
                    (snd (sixteen_partition k)))
         else Raised (LibraryError "not in the transcript"), S w)
    | Clustering.train_test_split X y _ _ _ => fun w =>
        (Ok (Clustering.mkSplit (train_part test X) (test_part test X)
               (train_part test y) (test_part test y)), S w)
    | Clustering.KNeighborsClassifier_fit n X y => fun w =>
        (Ok (mkKnn n X y), S w)
    | Clustering.KNeighborsClassifier_predict knn X => fun w =>
        (Ok (map (fun x => match Inference.predict knn x with
                           | Some l => l
                           | None => (-1)%Z
                           end) X), S w)
    | Clustering.accuracy_score y_true y_pred => fun w =>
        (Ok (accuracy_of y_true y_pred), S w)
    | Clustering.sk_confusion_matrix y_true y_pred => fun w =>
        (Ok (confusion_of y_true y_pred), S w)
    | Clustering.PCA_fit_transform _ _ X => fun w =>
        (if matrix_eqb X sixteen_X_scaled
         then Ok (map (fun x => (hd (Fin 0) x, Fin 0)) X)
         else Raised (LibraryError "not in the transcript"), S w)
    end.

(** A fleet whose features are the sixteen airlines: each airline has as
    many aircraft as its fleet size, all of one type, entered in 2012. *)
Definition sixteen_names : list string :=
  ["S01"; "S02"; "S03"; "S04"; "S05"; "S06"; "S07"; "S08";
   "S09"; "S10"; "S11"; "S12"; "S13"; "S14"; "S15"; "S16"].

Definition sixteen_fleet : DataFrame Aircraft.t :=
  mkDataFrame fleet_columns
    (flat_map (fun nf => repeat (aircraft (fst nf) (Some "France") 2012 "A320")
                                (Z.to_nat (snd nf)))
              (combine sixteen_names sixteen_fleets)).

Definition files_with_fleet (df : DataFrame Aircraft.t) : FileSystem :=
  mkFileSystem (Some df) None None None None None None None.

(** A fleet table that lacks the [region] and [entry_year] columns. *)
Definition fleet_without_region : DataFrame Aircraft.t :=
  mkDataFrame ["airline_name"; "country"; "aircraft_type"]
    [aircraft "Air X" (Some "France") 2012 "B737"].

(** A scores table that lacks the [diversity_score] column. *)
Definition scores_without_diversity : DataFrame Airline.t :=
  mkDataFrame ["airline_name"; "fleet_size"; "modernity_index"]
    [airline "T1" 5 1 (CNum (Fin 0))].

(** The run of the clustering stage on the sixteen airlines, and the files
    it leaves. *)
Definition sixteen_run : result FileSystem * nat :=
  Clustering.interp (transcript sixteen_test)
    (Clustering.run no_text (files_with_scores sixteen_airlines)) 0%nat.

Definition sixteen_files : FileSystem :=
  match fst sixteen_run with
  | Ok fs' => fs'
  | Raised _ => files_with_scores sixteen_airlines
  end.

(** The sixteen airlines in a scores table that already has a [cluster]
    column. *)
Definition sixteen_with_cluster : DataFrame Airline.t :=
  mkDataFrame (features_columns ++ ["cluster"])%list (rows sixteen_airlines).

(** The whole pipeline on the fleet of the sixteen airlines, and the same
    pipeline when the fleet file is absent. *)
Definition sixteen_pipeline : FileSystem * Main.Outcome * nat :=
  Main.main no_text (transcript sixteen_test) (files_with_fleet sixteen_fleet)
    0%nat.

Definition pipeline_without_fleet : FileSystem * Main.Outcome * nat :=
  Main.main no_text (transcript sixteen_test)
    (files_with_scores sixteen_airlines) 0%nat.

End Sample.

(* ================================================================== *)
(** * Properties *)

(* ------------------------------------------------------------------ *)
(** ** Lists and keys *)

Lemma flat_map_singleton {A B} (f : A -> list B) (g : A -> B) (l : list A) :
  (forall x, In x l -> f x = [g x]) -> flat_map f l = map g l.
Proof.
  induction l as [|a l IH]; intros H; simpl; [reflexivity|].
  rewrite (H a (or_introl eq_refl)), IH; [reflexivity|].
  intros x Hx. apply H. now right.
Qed.

Lemma filter_nil_iff {A} (p : A -> bool) (l : list A) :
  (forall x, In x l -> p x = false) -> filter p l = [].
Proof.
  induction l as [|a l IH]; intros H; simpl; [reflexivity|].
  rewrite (H a (or_introl eq_refl)). apply IH. intros x Hx. apply H. now right.
Qed.

Lemma filter_map_invariant {A} (p : A -> bool) (f : A -> A) (l : list A) :
  (forall x, p (f x) = p x) -> filter p (map f l) = map f (filter p l).
Proof.
  intros H. induction l as [|a l IH]; simpl; [reflexivity|].
  rewrite H. destruct (p a); simpl; now rewrite IH.
Qed.

Lemma insert_key_perm k l :
  Permutation (GenerateFeatures.insert_key k l) (k :: l).
Proof.
  induction l as [|h t IH]; simpl; [reflexivity|].
  destruct (String.leb k h); [reflexivity|].
  rewrite IH. apply perm_swap.
Qed.

Lemma sort_keys_perm l : Permutation (GenerateFeatures.sort_keys l) l.
Proof.
  induction l as [|k l IH]; simpl; [reflexivity|].
  rewrite insert_key_perm. now constructor.
Qed.

Lemma dropna_text_In (l : list (option string)) k :
  In k (GenerateFeatures.dropna_text l) <-> In (Some k) l.
Proof.
  unfold GenerateFeatures.dropna_text. rewrite in_flat_map. split.
  - intros (v & Hv & Hk). destruct v as [s|]; simpl in Hk; [|contradiction].
    destruct Hk as [->|[]]. exact Hv.
  - intros H. exists (Some k). split; [exact H|now left].
Qed.

(** One key and its size among the sizes of pairwise distinct keys. *)
Lemma filter_key_unique {V} (f : string -> V) (ks : list string) k :
  NoDup ks -> In k ks ->
  filter (fun kv : string * V => fst kv =? k) (map (fun k' => (k', f k')) ks)
  = [(k, f k)].
Proof.
  induction ks as [|h t IH]; intros Hnd Hin; [contradiction|].
  inversion Hnd as [|? ? Hnot Hnd']; subst. simpl.
  destruct (String.eqb_spec h k) as [->|Hne].
  - f_equal. apply filter_nil_iff. intros [k' v] Hx. simpl.
    apply in_map_iff in Hx. destruct Hx as (k'' & [= <- <-] & Hk'').
    apply String.eqb_neq. intros ->. contradiction.
  - destruct Hin as [->|Hin]; [contradiction|]. now apply IH.
Qed.

Section FeatureLemmas.
Variable parse_float : string -> option num.

Let clean := GenerateFeatures.clean parse_float.
Let prepare := GenerateFeatures.prepare parse_float.
Let groupby := GenerateFeatures.groupby.
Let group_keys := GenerateFeatures.group_keys.

Lemma group_keys_NoDup l : NoDup (group_keys l).
Proof.
  unfold group_keys, GenerateFeatures.group_keys.
  eapply Permutation_NoDup; [symmetry; apply sort_keys_perm|].
  apply NoDup_nodup.
Qed.

Lemma group_keys_In l k :
  In k (group_keys l) <-> exists r, In r l /\ Aircraft.airline_name r = Some k.
Proof.
  unfold group_keys, GenerateFeatures.group_keys.
  rewrite (Permutation_in' (eq_refl k) (sort_keys_perm _)).
  rewrite nodup_In, dropna_text_In, in_map_iff.
  split; intros (r & H1 & H2); exists r; auto.
Qed.

Lemma in_group_iff k r :
  GenerateFeatures.in_group k r = true <-> Aircraft.airline_name r = Some k.
Proof.
  unfold GenerateFeatures.in_group.
  destruct (Aircraft.airline_name r) as [n|]; [|split; discriminate].
  rewrite String.eqb_eq. split; [now intros ->|now intros [= ->]].
Qed.

(** A group holds exactly the rows that carry its key. *)
Lemma groupby_member l g r :
  In g (groupby l) ->
  (In r (snd g) <-> In r l /\ Aircraft.airline_name r = Some (fst g)).
Proof.
  unfold groupby, GenerateFeatures.groupby. rewrite in_map_iff.
  intros (k & <- & _). simpl. rewrite filter_In, in_group_iff. reflexivity.
Qed.

Lemma groupby_keys l : map fst (groupby l) = group_keys l.
Proof.
  unfold groupby, GenerateFeatures.groupby. rewrite map_map. simpl.
  apply map_id.
Qed.

Lemma groupby_nonempty l g : In g (groupby l) -> snd g <> [].
Proof.
  intros Hg Hnil.
  assert (Hk : In (fst g) (group_keys l)).
  { rewrite <- groupby_keys. now apply in_map. }
  apply group_keys_In in Hk. destruct Hk as (r & Hr & Hn).
  assert (Hin : In r (snd g)) by (apply (groupby_member l g r Hg); auto).
  rewrite Hnil in Hin. contradiction.
Qed.

(** The left merge finds one size for every key: the table of features is the
    list of groups, row by row. *)
Lemma merge_left_groups dc l :
  GenerateFeatures.merge_left
    (map (GenerateFeatures.agg parse_float dc) (groupby l))
    (GenerateFeatures.group_sizes l)
  = map (fun g => (GenerateFeatures.agg parse_float dc g,
                   of_nat (List.length (snd g)))) (groupby l).
Proof.
  unfold GenerateFeatures.merge_left. rewrite flat_map_concat_map, map_map.
  rewrite <- flat_map_concat_map. apply flat_map_singleton.
  intros g Hg. simpl.
  unfold GenerateFeatures.group_sizes. fold groupby.
  unfold groupby, GenerateFeatures.groupby in *. rewrite map_map. simpl.
  apply in_map_iff in Hg. destruct Hg as (k & <- & Hk). simpl.
  rewrite (filter_key_unique
             (fun k' => List.length (filter (GenerateFeatures.in_group k') l)));
    [reflexivity|apply group_keys_NoDup|exact Hk].
Qed.

Lemma build_stats_rows df :
  rows (GenerateFeatures.build_stats parse_float df)
  = map (GenerateFeatures.row_of_group parse_float
              (GenerateFeatures.diversity_col df))
        (groupby (prepare (rows df))).
Proof.
  unfold GenerateFeatures.build_stats. simpl.
  fold prepare. fold groupby. rewrite merge_left_groups, map_map. reflexivity.
Qed.

End FeatureLemmas.

(* ------------------------------------------------------------------ *)
(** ** Numbers *)

Lemma clip_in_unit x : x <> NaN -> in_unit (clip 0 1 x).
Proof.
  destruct x as [q| | |]; simpl; intros H; try (split; discriminate).
  - destruct (Qlt_le_dec q 0) as [Hlt|Hge]; simpl; [split; discriminate|].
    destruct (Qlt_le_dec 1 q) as [Hgt|Hle]; simpl; [split; discriminate|].
    now split.
  - now contradiction H.
Qed.

Lemma clip_above_one x : Reading.above 1 x -> clip 0 1 x = Fin 1.
Proof.
  destruct x as [q| | |]; simpl; intros H; try contradiction; try reflexivity.
  destruct (Qlt_le_dec q 0) as [Hlt|Hge].
  - exfalso. apply (Qlt_irrefl 0).
    apply Qlt_trans with 1; [reflexivity|]. now apply Qlt_trans with q.
  - destruct (Qlt_le_dec 1 q) as [Hgt|Hle]; [reflexivity|].
    exfalso. now apply (Qlt_not_le _ _ H).
Qed.

Lemma num_div_fin a b : ~ (b == 0)%Q -> num_div (Fin a) (Fin b) = Fin (a / b).
Proof.
  intros Hb. unfold num_div, Qsgn.
  destruct (0 ?= b)%Q eqn:E; try reflexivity.
  apply Qeq_alt in E. exfalso. apply Hb. now symmetry.
Qed.

Lemma replace_zero_fin q :
  exists q', replace 0 1 (Fin q) = Fin q' /\ ~ (q' == 0)%Q.
Proof.
  unfold replace. destruct (Qeq_bool q 0) eqn:E.
  - exists 1%Q. split; [reflexivity|discriminate].
  - exists q. split; [reflexivity|]. now apply Qeq_bool_neq.
Qed.

Lemma num_geb_at_least t x : num_geb x t = true <-> Reading.at_least t x.
Proof.
  destruct x as [q| | |]; simpl.
  - apply Qle_bool_iff.
  - split; auto.
  - split; [discriminate|contradiction].
  - split; [discriminate|contradiction].
Qed.

(** The index of step 9 lies in [0, 1] for every count and every finite size. *)
Lemma modernity_in_unit c q :
  in_unit (clip 0 1 (num_div (GenerateFeatures.pct c (Fin q)) (Fin 100))).
Proof.
  apply clip_in_unit. unfold GenerateFeatures.pct.
  destruct (replace_zero_fin q) as (q' & -> & Hq').
  unfold of_Z. rewrite num_div_fin by exact Hq'. cbn [num_mul].
  rewrite num_div_fin by discriminate. discriminate.
Qed.

(* ------------------------------------------------------------------ *)
(** ** Step 3: the features *)

Section Features.
Variable parse_float : string -> option num.

Let clean := GenerateFeatures.clean parse_float.
Let prepare := GenerateFeatures.prepare parse_float.
Let survives := Reading.survives parse_float.

Lemma survives_clean r :
  GenerateFeatures.has_geo (clean r)
  && GenerateFeatures.has_entry_year parse_float (clean r)
  = survives r.
Proof.
  unfold survives, Reading.survives, GenerateFeatures.has_geo,
    GenerateFeatures.has_entry_year, GenerateFeatures.year. simpl.
  destruct (notna _), (present (str_strip (Aircraft.country r))),
    (present (str_strip (Aircraft.region r))); reflexivity.
Qed.

Lemma prepare_In r l :
  In r l -> survives r = true -> In (clean r) (prepare l).
Proof.
  intros Hr Hs. unfold prepare, GenerateFeatures.prepare.
  rewrite <- survives_clean in Hs. apply andb_true_iff in Hs.
  destruct Hs as [Hg Hy].
  apply filter_In. split; [|exact Hg].
  apply filter_In. split; [|exact Hy]. now apply in_map.
Qed.

Lemma prepare_survives r l :
  In (clean r) (prepare l) -> survives r = true.
Proof.
  unfold prepare, GenerateFeatures.prepare. intros H.
  apply filter_In in H. destruct H as [H Hg].
  apply filter_In in H. destruct H as [_ Hy].
  rewrite <- survives_clean. fold clean. now rewrite Hg, Hy.
Qed.

Lemma prepare_app l1 l2 :
  prepare (l1 ++ l2)%list = (prepare l1 ++ prepare l2)%list.
Proof.
  unfold prepare, GenerateFeatures.prepare.
  now rewrite map_app, !filter_app.
Qed.

Lemma prepare_dropped r : survives r = false -> prepare [r] = [].
Proof.
  intros H. rewrite <- survives_clean in H.
  unfold prepare, GenerateFeatures.prepare. simpl. fold clean.
  destruct (GenerateFeatures.has_entry_year parse_float (clean r)); simpl;
    [|reflexivity].
  rewrite andb_true_r in H. now rewrite H.
Qed.

(** The size of a group, counted on the raw rows. *)
Lemma group_size_count k l :
  List.length (filter (GenerateFeatures.in_group k) (prepare l))
  = Reading.fleet_count parse_float k l.
Proof.
  unfold Reading.fleet_count. fold survives.
  induction l as [|r l IH]; [reflexivity|].
  change (r :: l) with ([r] ++ l)%list. rewrite prepare_app, !filter_app, !length_app.
  rewrite IH. f_equal. clear IH.
  destruct (survives r) eqn:Hs.
  - assert (Hp : prepare [r] = [clean r]).
    { unfold prepare, GenerateFeatures.prepare. simpl. fold clean.
      rewrite <- survives_clean in Hs. apply andb_true_iff in Hs.
      destruct Hs as [Hg Hy]. rewrite Hy. simpl. now rewrite Hg. }
    rewrite Hp. simpl. rewrite Hs. simpl.
    unfold GenerateFeatures.in_group, Reading.named. simpl.
    destruct (Aircraft.airline_name r) as [n|]; simpl; [|reflexivity].
    destruct (strip n =? k); reflexivity.
  - rewrite prepare_dropped by exact Hs. simpl. now rewrite Hs.
Qed.

End Features.

Section FeatureClaims.
Variable parse_float : string -> option num.

(** Every row of the features table has its [modernity_index] in [0, 1]. *)
Lemma features_modernity_in_unit df :
  Forall (fun a => cell_in_unit (Airline.modernity_index a))
         (rows (GenerateFeatures.build_stats parse_float df)).
Proof.
  rewrite build_stats_rows. apply Forall_forall. intros a Ha.
  apply in_map_iff in Ha. destruct Ha as (g & <- & _).
  unfold GenerateFeatures.row_of_group, GenerateFeatures.finish. simpl.
  apply modernity_in_unit.
Qed.

(** C8, as amended: the [fleet_size] of the feature row of airline [X] is the
    number of input rows whose stripped [airline_name] is [X] and that pass
    the drop on [entry_year], country and region; it is at least 1. *)
Theorem fleet_size_counts_surviving_rows df a :
  In a (rows (GenerateFeatures.build_stats parse_float df)) ->
  exists X,
    Airline.airline_name a = Some X
    /\ Airline.fleet_size a = of_nat (Reading.fleet_count parse_float X (rows df))
    /\ (1 <= Reading.fleet_count parse_float X (rows df))%nat.
Proof.
  rewrite build_stats_rows. intros Ha.
  apply in_map_iff in Ha. destruct Ha as (g & <- & Hg).
  exists (fst g).
  assert (Hsize : List.length (snd g)
                  = Reading.fleet_count parse_float (fst g) (rows df)).
  { pose proof Hg as Hg'. unfold GenerateFeatures.groupby in Hg'.
    apply in_map_iff in Hg'. destruct Hg' as (k & <- & _). simpl.
    apply group_size_count. }
  split; [reflexivity|]. split.
  - unfold GenerateFeatures.row_of_group, GenerateFeatures.finish. simpl.
    now rewrite Hsize.
  - rewrite <- Hsize. pose proof (groupby_nonempty _ _ Hg) as Hne.
    destruct (snd g); [contradiction|simpl; lia].
Qed.

(** C9, as amended: two input rows feed the same feature row exactly when
    both pass the drops and their names are equal once stripped of leading and
    trailing blanks. *)
Theorem grouped_by_stripped_name df r1 r2 :
  In r1 (rows df) -> In r2 (rows df) ->
  (Reading.grouped_together parse_float df r1 r2 <->
   Reading.survives parse_float r1 = true
   /\ Reading.survives parse_float r2 = true
   /\ exists k, str_strip (Aircraft.airline_name r1) = Some k
                /\ str_strip (Aircraft.airline_name r2) = Some k).
Proof.
  intros H1 H2. unfold Reading.grouped_together, Reading.aggregated_into.
  split.
  - intros (a & _ & (g1 & Hg1 & Hin1 & E1) & (g2 & Hg2 & Hin2 & E2)).
    assert (Hk : fst g1 = fst g2).
    { rewrite E1 in E2. apply (f_equal Airline.airline_name) in E2.
      simpl in E2. now injection E2. }
    apply (groupby_member _ _ _ Hg1) in Hin1. destruct Hin1 as [Hp1 Hn1].
    apply (groupby_member _ _ _ Hg2) in Hin2. destruct Hin2 as [Hp2 Hn2].
    split; [now apply prepare_survives in Hp1|].
    split; [now apply prepare_survives in Hp2|].
    exists (fst g1). split; [exact Hn1|]. rewrite Hk. exact Hn2.
  - intros (Hs1 & Hs2 & k & Hk1 & Hk2).
    pose proof (prepare_In parse_float _ _ H1 Hs1) as Hp1.
    pose proof (prepare_In parse_float _ _ H2 Hs2) as Hp2.
    set (l := GenerateFeatures.prepare parse_float (rows df)) in *.
    set (g := (k, filter (GenerateFeatures.in_group k) l)).
    assert (Hg : In g (GenerateFeatures.groupby l)).
    { unfold GenerateFeatures.groupby. apply in_map_iff. exists k.
      split; [reflexivity|]. apply group_keys_In.
      exists (GenerateFeatures.clean parse_float r1). split; [exact Hp1|].
      exact Hk1. }
    exists (GenerateFeatures.row_of_group parse_float
              (GenerateFeatures.diversity_col df) g).
    split.
    { rewrite build_stats_rows. now apply in_map. }
    split; exists g; (split; [exact Hg|split; [|reflexivity]]);
      apply (groupby_member _ _ _ Hg); split; assumption.
Qed.

(** C10: an input row whose country is missing, or empty once stripped, is
    dropped before the aggregation: the features table is the one computed
    without that row. *)
Theorem row_without_country_is_dropped cols l1 r l2 :
  present (str_strip (Aircraft.country r)) = false ->
  GenerateFeatures.build_stats parse_float (mkDataFrame cols (l1 ++ r :: l2)%list)
  = GenerateFeatures.build_stats parse_float (mkDataFrame cols (l1 ++ l2)%list).
Proof.
  intros Hc.
  assert (Hs : Reading.survives parse_float r = false).
  { unfold Reading.survives. rewrite Hc. now rewrite andb_false_r. }
  assert (Hp : GenerateFeatures.prepare parse_float (l1 ++ r :: l2)%list
               = GenerateFeatures.prepare parse_float (l1 ++ l2)%list).
  { change (r :: l2) with ([r] ++ l2)%list.
    rewrite !prepare_app, (prepare_dropped parse_float r Hs). reflexivity. }
  unfold GenerateFeatures.build_stats, GenerateFeatures.diversity_col,
    has_column. simpl. now rewrite Hp.
Qed.

End FeatureClaims.

(** C8, as stated, fails: with a row that has a region and an [entry_year]
    but no country the airline's [fleet_size] is 1, not the 2 rows that pass
    a drop on region and [entry_year]; with a name that differs by a leading
    blank the [fleet_size] is 2, not the 1 row whose name is exactly the
    airline's. *)
Lemma fleet_size_differs_from_stated_count :
  (exists a,
      In a (rows (GenerateFeatures.build_stats Reading.no_text
                    Sample.fleet_without_country))
      /\ Airline.airline_name a = Some "Air X"
      /\ Airline.fleet_size a = of_nat 1
      /\ Reading.fleet_count_as_stated Reading.no_text "Air X"
           (rows Sample.fleet_without_country) = 2%nat)
  /\ (exists a,
         In a (rows (GenerateFeatures.build_stats Reading.no_text
                       Sample.fleet_with_blank))
         /\ Airline.airline_name a = Some "Air X"
         /\ Airline.fleet_size a = of_nat 2
         /\ Reading.fleet_count_as_stated Reading.no_text "Air X"
              (rows Sample.fleet_with_blank) = 1%nat).
Proof.
  split; eexists; (split; [left; reflexivity|]); repeat split.
Qed.

Lemma fleet_size_counts_surviving_rows_witness :
  exists X,
    Airline.airline_name
      (hd (Sample.airline "" 0 0 (CNum NaN))
          (rows (GenerateFeatures.build_stats Reading.no_text
                   Sample.fleet_with_blank))) = Some X
    /\ Airline.fleet_size
         (hd (Sample.airline "" 0 0 (CNum NaN))
             (rows (GenerateFeatures.build_stats Reading.no_text
                      Sample.fleet_with_blank)))
       = of_nat (Reading.fleet_count Reading.no_text X
                   (rows Sample.fleet_with_blank))
    /\ (1 <= Reading.fleet_count Reading.no_text X
               (rows Sample.fleet_with_blank))%nat.
Proof.
  apply (fleet_size_counts_surviving_rows Reading.no_text
           Sample.fleet_with_blank).
  left. reflexivity.
Defined.

(** C9, as stated, fails: two rows whose names differ by a leading blank feed
    the same feature row. *)
Lemma names_differing_by_a_blank_are_grouped :
  let r1 := Sample.aircraft "Air X" (Some "France") 2016 "A320" in
  let r2 := Sample.aircraft " Air X" (Some "France") 2012 "B737" in
  In r1 (rows Sample.fleet_with_blank)
  /\ In r2 (rows Sample.fleet_with_blank)
  /\ Reading.grouped_together Reading.no_text Sample.fleet_with_blank r1 r2
  /\ Aircraft.airline_name r1 <> Aircraft.airline_name r2.
Proof.
  cbv zeta. split; [now left|]. split; [right; now left|]. split.
  - eexists. split; [left; reflexivity|].
    split; eexists; (split; [left; reflexivity|]); (split; [|reflexivity]);
      simpl; auto.
  - discriminate.
Qed.

Lemma grouped_by_stripped_name_witness :
  Reading.grouped_together Reading.no_text Sample.fleet_with_blank
    (Sample.aircraft "Air X" (Some "France") 2016 "A320")
    (Sample.aircraft " Air X" (Some "France") 2012 "B737")
  <-> Reading.survives Reading.no_text
        (Sample.aircraft "Air X" (Some "France") 2016 "A320") = true
      /\ Reading.survives Reading.no_text
           (Sample.aircraft " Air X" (Some "France") 2012 "B737") = true
      /\ exists k,
           str_strip (Aircraft.airline_name
                        (Sample.aircraft "Air X" (Some "France") 2016 "A320"))
           = Some k
           /\ str_strip (Aircraft.airline_name
                           (Sample.aircraft " Air X" (Some "France") 2012 "B737"))
              = Some k.
Proof.
  apply (grouped_by_stripped_name Reading.no_text Sample.fleet_with_blank).
  - left. reflexivity.
  - right. left. reflexivity.
Defined.

Lemma row_without_country_is_dropped_witness :
  GenerateFeatures.build_stats Reading.no_text Sample.fleet_without_country
  = GenerateFeatures.build_stats Reading.no_text Sample.fleet_with_country.
Proof.
  apply (row_without_country_is_dropped Reading.no_text Sample.fleet_columns
           [] (Sample.aircraft "Air X" None 2016 "A320")
           [Sample.aircraft "Air X" (Some "France") 2012 "B737"]).
  reflexivity.
Defined.

(* ------------------------------------------------------------------ *)
(** ** Step 4: the scores *)

Section ScoreClaims.
Variable parse_float : string -> option num.

Lemma sanitize_fleet_size r :
  Airline.fleet_size (BuildScores.sanitize parse_float r) = Airline.fleet_size r.
Proof. reflexivity. Qed.

Lemma clamp_in_unit c : cell_in_unit (BuildScores.clamp parse_float c).
Proof.
  unfold BuildScores.clamp. simpl. apply clip_in_unit.
  destruct (to_numeric parse_float c); discriminate.
Qed.

(** Every row of the scores table has its [modernity_index] in [0, 1],
    whatever the features table holds. *)
Lemma scores_modernity_in_unit df :
  Forall (fun a => cell_in_unit (Airline.modernity_index a))
         (rows (BuildScores.build_scores parse_float df)).
Proof.
  apply Forall_forall. intros a Ha. simpl in Ha.
  apply in_map_iff in Ha. destruct Ha as (r & <- & _). apply clamp_in_unit.
Qed.

(** An index above 1 leaves step 4 as 1. *)
Lemma clamp_above_one c :
  Reading.above 1 (to_numeric parse_float c) ->
  BuildScores.clamp parse_float c = CNum (Fin 1).
Proof.
  intros H. unfold BuildScores.clamp. f_equal. apply clip_above_one.
  destruct (to_numeric parse_float c); simpl in *; try contradiction; auto.
Qed.

(** C4: step 4 writes a scores table that holds the (sanitized) row of an
    airline exactly when its [fleet_size] is at least [MIN_FLEET_SIZE]; every
    row written comes from such an airline, and nothing else is written. *)
Theorem scores_hold_exactly_the_large_fleets fs fs' df :
  FILE_FEATURES fs = Some df ->
  BuildScores.main parse_float fs = Ok fs' ->
  exists out,
    FILE_SCORES fs' = Some out
    /\ (forall r, In r (rows df) ->
          (In (BuildScores.sanitize parse_float r) (rows out) <->
           Reading.at_least (inject_Z Config.MIN_FLEET_SIZE) (Airline.fleet_size r)))
    /\ (forall a, In a (rows out) ->
          Reading.at_least (inject_Z Config.MIN_FLEET_SIZE) (Airline.fleet_size a)
          /\ exists r, In r (rows df) /\ a = BuildScores.sanitize parse_float r)
    /\ List.length (rows out)
       = List.length (filter BuildScores.large_enough (rows df)).
Proof.
  intros Hdf Hmain. unfold BuildScores.main in Hmain. rewrite Hdf in Hmain.
  destruct (filter _ ["fleet_size"; "modernity_index"]); [|discriminate].
  injection Hmain as <-.
  exists (BuildScores.build_scores parse_float df).
  split; [reflexivity|]. simpl. repeat split.
  - intros Hin. apply in_map_iff in Hin. destruct Hin as (r' & E & Hr').
    apply filter_In in Hr'. destruct Hr' as [_ Hl].
    apply num_geb_at_least. unfold BuildScores.large_enough in Hl.
    rewrite <- (sanitize_fleet_size r), <- E, sanitize_fleet_size. exact Hl.
  - intros Hge. apply in_map. apply filter_In. split; [assumption|].
    now apply num_geb_at_least.
  - apply in_map_iff in H. destruct H as (r & <- & Hr).
    apply filter_In in Hr. destruct Hr as [_ Hl].
    rewrite sanitize_fleet_size. now apply num_geb_at_least.
  - apply in_map_iff in H. destruct H as (r & <- & Hr).
    apply filter_In in Hr. destruct Hr as [Hr _]. exists r. now split.
  - apply length_map.
Qed.

End ScoreClaims.

Lemma scores_hold_exactly_the_large_fleets_witness :
  exists out,
    FILE_SCORES (write_scores
                   (BuildScores.build_scores Reading.no_text Sample.twenty_airlines)
                   (Sample.files_with_features Sample.twenty_airlines))
    = Some out
    /\ (forall r, In r (rows Sample.twenty_airlines) ->
          (In (BuildScores.sanitize Reading.no_text r) (rows out) <->
           Reading.at_least (inject_Z Config.MIN_FLEET_SIZE) (Airline.fleet_size r)))
    /\ (forall a, In a (rows out) ->
          Reading.at_least (inject_Z Config.MIN_FLEET_SIZE) (Airline.fleet_size a)
          /\ exists r, In r (rows Sample.twenty_airlines)
                       /\ a = BuildScores.sanitize Reading.no_text r)
    /\ List.length (rows out)
       = List.length (filter BuildScores.large_enough (rows Sample.twenty_airlines)).
Proof.
  apply (scores_hold_exactly_the_large_fleets Reading.no_text
           (Sample.files_with_features Sample.twenty_airlines)
           (df := Sample.twenty_airlines)).
  - reflexivity.
  - reflexivity.
Defined.

(** The scenario of the twenty airlines: eighteen rows are written, the two
    fleets of 3 and 4 aircraft are absent, the index of 120 % is written as 1
    and the index that is no number as 0. *)
Example twenty_airlines_scores :
  let out := BuildScores.build_scores Reading.no_text Sample.twenty_airlines in
  List.length (rows out) = 18%nat
  /\ map Airline.airline_name (firstn 2 (rows out)) = [Some "A03"; Some "A04"]
  /\ map Airline.modernity_index (skipn 16 (rows out))
     = [CNum (Fin 1); CNum (Fin 0)].
Proof. repeat split. Qed.

(* ------------------------------------------------------------------ *)
(** ** Step 5: runs of the clustering script *)

Section Runs.
Import Clustering.
Variable W : Type.
Variable h : handler W.

Lemma interp_pbind {A B} (p : prog A) (f : A -> prog B) w :
  interp h (pbind p f) w
  = match interp h p w with
    | (Ok a, w') => interp h (f a) w'
    | (Raised e, w') => (Raised e, w')
    end.
Proof.
  revert w. induction p as [a|e|R c k IH]; intros w; simpl; try reflexivity.
  destruct (@h R c w) as [[r|e] w']; [apply IH|reflexivity].
Qed.

Lemma interp_call {R} (c : sklearn R) w : interp h (call c) w = @h R c w.
Proof.
  unfold call. simpl. now destruct (@h R c w) as [[r|e] w'].
Qed.

Lemma interp_lift {A} (r : result A) w : interp h (lift r) w = (r, w).
Proof. now destruct r. Qed.

(** What a step of a run that ends well must have returned. *)
Lemma bind_ok_inv {A B} (p : prog A) (f : A -> prog B) w b w' :
  interp h (pbind p f) w = (Ok b, w') ->
  exists a w1, interp h p w = (Ok a, w1) /\ interp h (f a) w1 = (Ok b, w').
Proof.
  rewrite interp_pbind. destruct (interp h p w) as [[a|e] w1]; [|discriminate].
  intros H. now exists a, w1.
Qed.

Lemma elbow_ok ks X e0 w e w' :
  interp h (elbow ks X e0) w = (Ok e, w') ->
  elbow_k e = (elbow_k e0 ++ ks)%list
  /\ exists vs, elbow_inertia e = (elbow_inertia e0 ++ vs)%list
                /\ Forall2 (fitted_inertia h X) ks vs.
Proof.
  revert e0 w. induction ks as [|k ks IH]; intros e0 w H; simpl in H.
  - injection H as <- _. rewrite app_nil_r. split; [reflexivity|].
    exists []. rewrite app_nil_r. split; [reflexivity|constructor].
  - destruct (h (KMeans_fit k (Some random_state) 10 X) w)
      as [[km|e'] w1] eqn:Hkm; [|discriminate].
    apply IH in H. simpl in H.
    destruct H as (Hk & vs & Hv & Hall). split.
    + rewrite Hk, <- app_assoc. reflexivity.
    + exists (inertia_ km :: vs). split.
      * rewrite Hv, <- app_assoc. reflexivity.
      * constructor; [|exact Hall]. now exists w, w1, km.
Qed.

Lemma assign_ok {R V S} (f : R -> V -> S) l values out :
  assign f l values = Ok out ->
  List.length values = List.length l
  /\ out = map (fun rv => f (fst rv) (snd rv)) (combine l values).
Proof.
  unfold assign. destruct (Nat.eqb_spec (List.length values) (List.length l));
    [|discriminate].
  intros [= <-]. now split.
Qed.

Lemma with_cluster_combine (l : list (Airline.t * Z)) :
  map (fun rv => with_cluster (fst rv) (snd rv)) l = l.
Proof.
  induction l as [|[r c] l IH]; simpl; [reflexivity|]. now rewrite IH.
Qed.

Variable parse_float : string -> option num.

(** A run of [cluster_scores] that ends well, call by call. *)
Lemma cluster_scores_ok df fs w fs' w' :
  interp h (cluster_scores parse_float df fs) w = (Ok fs', w') ->
  let df' := with_new_gen_share df in
  let df_clean := filter large_enough (rows df') in
  exists sc Xs km el sp knn metrics comps w1 w2 w3 w4 w5,
    @h _ (StandardScaler_fit_transform (map (features parse_float) df_clean)) w
    = (Ok (sc, Xs), w1)
    /\ @h _ (KMeans_fit 4 (Some random_state) 10 Xs) w1 = (Ok km, w2)
    /\ List.length (labels_ km) = List.length df_clean
    /\ interp h (elbow (seq 1 9) Xs (mkElbow [] [])) w2 = (Ok el, w3)
    /\ @h _ (train_test_split Xs (labels_ km) (2 # 10) (Some random_state)
               (Some (labels_ km))) w3 = (Ok sp, w4)
    /\ @h _ (KNeighborsClassifier_fit 5 (X_train sp) (y_train sp)) w4
       = (Ok knn, w5)
    /\ List.length comps = List.length df_clean
    /\ fs' = write_artifacts
               (mkDataFrame
                  (assign_column "pca_2"
                     (assign_column "pca_1"
                        (assign_column "cluster" (columns df'))))
                  (map (fun rcp => with_pca (fst rcp) (snd rcp))
                       (combine (combine df_clean (labels_ km)) comps)))
               sc knn el metrics fs.
Proof.
  intros H df' df_clean. unfold cluster_scores in H.
  apply bind_ok_inv in H. destruct H as (u & w0 & Hcols & H).
  rewrite interp_lift in Hcols. injection Hcols as Hc Hw0. subst w0.
  cbv beta zeta in H. fold df' in H. fold df_clean in H.
  apply bind_ok_inv in H. destruct H as ([sc Xs] & w1 & Hsc & H).
  rewrite interp_call in Hsc. cbv beta zeta in H. simpl fst in H. simpl snd in H.
  apply bind_ok_inv in H. destruct H as (km & w2 & Hkm & H).
  rewrite interp_call in Hkm. cbv beta zeta in H.
  apply bind_ok_inv in H. destruct H as (labelled & w2' & Hlab & H).
  rewrite interp_lift in Hlab. injection Hlab as Hlab Hw2. subst w2'.
  apply assign_ok in Hlab. destruct Hlab as [Hlen ->].
  rewrite with_cluster_combine in H.
  apply bind_ok_inv in H. destruct H as (el & w3 & Hel & H).
  cbv beta zeta in H.
  apply bind_ok_inv in H. destruct H as (sp & w4 & Hsp & H).
  rewrite interp_call in Hsp.
  apply bind_ok_inv in H. destruct H as (knn & w5 & Hknn & H).
  rewrite interp_call in Hknn.
  apply bind_ok_inv in H. destruct H as (y_pred & w6 & _ & H).
  apply bind_ok_inv in H. destruct H as (acc & w7 & _ & H).
  apply bind_ok_inv in H. destruct H as (cm & w8 & _ & H).
  cbv beta zeta in H.
  apply bind_ok_inv in H. destruct H as (comps & w9 & _ & H).
  apply bind_ok_inv in H. destruct H as (projected & w10 & Hproj & H).
  rewrite interp_lift in Hproj. injection Hproj as Hproj Hw10. subst w10.
  apply assign_ok in Hproj. destruct Hproj as [Hlenc ->].
  simpl in H. injection H as Hfs Hw9. subst fs' w'.
  exists sc, Xs, km, el, sp, knn, (mkMetrics acc cm), comps, w1, w2, w3, w4, w5.
  rewrite length_combine, Hlen, Nat.min_id in Hlenc.
  repeat split; assumption || reflexivity.
Qed.

(** The airlines of the clusters table are the rows that passed the filter,
    and their clusters are the labels of the 4-cluster fit. *)
Lemma clustered_airlines (l : list Airline.t) (labels : list Z) comps :
  List.length labels = List.length l ->
  List.length comps = List.length l ->
  let out := map (fun rcp : Airline.t * Z * (num * num) =>
                    with_pca (fst rcp) (snd rcp))
                 (combine (combine l labels) comps) in
  map airline out = l /\ map cluster out = labels.
Proof.
  revert labels comps. induction l as [|r l IH]; intros [|c labels] [|p comps];
    simpl; try discriminate; try (split; reflexivity).
  intros [= H1] [= H2]. destruct (IH labels comps H1 H2) as [Ha Hc].
  simpl in Ha, Hc. now rewrite Ha, Hc.
Qed.

End Runs.

(* ------------------------------------------------------------------ *)
(** ** Step 5: seeds *)

Section Seeds.
Import Clustering.

Lemma all_seeded_pbind {A B} (p : prog A) (f : A -> prog B) :
  all_seeded p -> (forall a, all_seeded (f a)) -> all_seeded (pbind p f).
Proof.
  intros Hp Hf. induction Hp as [a|e|R c k Hc _ IH]; simpl.
  - apply Hf.
  - constructor.
  - constructor; [exact Hc|exact IH].
Qed.

Lemma all_seeded_call {R} (c : sklearn R) :
  seeded c = true -> all_seeded (call c).
Proof. intros Hc. constructor; [exact Hc|]. intros r. constructor. Qed.

Lemma all_seeded_lift {A} (r : result A) : all_seeded (lift r).
Proof. destruct r; constructor. Qed.

Lemma all_seeded_elbow ks X e : all_seeded (elbow ks X e).
Proof.
  revert e. induction ks as [|k ks IH]; intros e; simpl.
  - constructor.
  - constructor; [reflexivity|]. intros km. simpl. apply IH.
Qed.

Create HintDb seeds.
#[local] Hint Resolve all_seeded_call all_seeded_lift all_seeded_elbow : seeds.
#[local] Hint Constructors all_seeded : seeds.

Ltac seeded_step :=
  apply all_seeded_pbind; [auto with seeds|intros ?].

Variable parse_float : string -> option num.

Lemma all_seeded_cluster_scores df fs :
  all_seeded (cluster_scores parse_float df fs).
Proof.
  unfold cluster_scores. repeat seeded_step. constructor.
Qed.

Lemma all_seeded_run fs : all_seeded (run parse_float fs).
Proof.
  unfold run. destruct (FILE_SCORES fs);
    [apply all_seeded_cluster_scores|constructor].
Qed.

Lemma all_seeded_steps fs : all_seeded (Main.steps parse_float fs).
Proof.
  unfold Main.steps. repeat seeded_step. apply all_seeded_run.
Qed.

Variable W : Type.
Variable h : handler W.
Hypothesis h_reproducible : reproducible h.

Lemma interp_reproducible {A} (p : prog A) :
  all_seeded p ->
  forall w1 w2, fst (interp h p w1) = fst (interp h p w2).
Proof.
  induction 1 as [a|e|R c k Hc _ IH]; intros w1 w2; simpl; try reflexivity.
  pose proof (h_reproducible c w1 w2 Hc) as E.
  destruct (@h R c w1) as [r1 w1'], (@h R c w2) as [r2 w2']. simpl in E. subst r2.
  destruct r1 as [r|e]; [apply IH|reflexivity].
Qed.

End Seeds.

(** C6: with a library whose seeded calls are reproducible, two runs of the
    clustering stage (and of the three steps in a row) on the same files end
    with the same result, whatever the state of the process they start in:
    the same clusters table, elbow values, metrics and models, or the same
    exception. *)
Theorem same_files_same_seed_same_outputs
    (parse_float : string -> option num) (W : Type)
    (h : Clustering.handler W) (fs : FileSystem) (w1 w2 : W) :
  Clustering.reproducible h ->
  fst (Clustering.interp h (Clustering.run parse_float fs) w1)
  = fst (Clustering.interp h (Clustering.run parse_float fs) w2)
  /\ fst (Clustering.interp h (Main.steps parse_float fs) w1)
     = fst (Clustering.interp h (Main.steps parse_float fs) w2).
Proof.
  intros Hh. split.
  - apply interp_reproducible; [exact Hh|apply all_seeded_run].
  - apply interp_reproducible; [exact Hh|apply all_seeded_steps].
Qed.

Lemma transcript_reproducible test :
  Clustering.reproducible (Sample.transcript test).
Proof.
  intros R c w1 w2 _. destruct c; reflexivity.
Qed.

Lemma same_files_same_seed_same_outputs_witness :
  fst (Clustering.interp (Sample.transcript Sample.sixteen_test)
         (Clustering.run Reading.no_text
            (Sample.files_with_scores Sample.sixteen_airlines)) 0%nat)
  = fst (Clustering.interp (Sample.transcript Sample.sixteen_test)
           (Clustering.run Reading.no_text
              (Sample.files_with_scores Sample.sixteen_airlines)) 7%nat)
  /\ fst (Clustering.interp (Sample.transcript Sample.sixteen_test)
            (Main.steps Reading.no_text
               (Sample.files_with_scores Sample.sixteen_airlines)) 0%nat)
     = fst (Clustering.interp (Sample.transcript Sample.sixteen_test)
              (Main.steps Reading.no_text
                 (Sample.files_with_scores Sample.sixteen_airlines)) 7%nat).
Proof.
  apply (same_files_same_seed_same_outputs Reading.no_text
           (h := Sample.transcript Sample.sixteen_test)
           (Sample.files_with_scores Sample.sixteen_airlines) 0%nat 7%nat).
  apply transcript_reproducible.
Defined.

(* ------------------------------------------------------------------ *)
(** ** Step 5: what the script checks before it fits *)

(** C1, as amended: the clustering stage has no guard on the number of rows.
    When the scores file is there with its required columns, the first thing
    the script does with the rows that pass the fleet filter, however few, is
    to fit the scaler on them, and the next is to fit the 4-cluster model on
    what the scaler returns. *)
Theorem clustering_fits_whatever_rows_remain
    (parse_float : string -> option num) (fs : FileSystem)
    (df : DataFrame Airline.t) :
  FILE_SCORES fs = Some df ->
  Clustering.ensure_required_cols df
    ["fleet_size"; "diversity_score"; "modernity_index"] = Ok tt ->
  exists k,
    Clustering.run parse_float fs
    = Clustering.Call
        (Clustering.StandardScaler_fit_transform
           (map (Clustering.features parse_float)
                (filter Clustering.large_enough
                        (rows (Clustering.with_new_gen_share df)))))
        (fun fitted =>
           Clustering.Call
             (Clustering.KMeans_fit 4 (Some Clustering.random_state) 10
                (snd fitted))
             (k fitted)).
Proof.
  intros Hdf Hcols. unfold Clustering.run, Clustering.cluster_scores.
  rewrite Hdf, Hcols. simpl. eexists. reflexivity.
Qed.

Lemma clustering_fits_whatever_rows_remain_witness :
  exists k,
    Clustering.run Reading.no_text (Sample.files_with_scores Sample.no_airlines)
    = Clustering.Call
        (Clustering.StandardScaler_fit_transform
           (map (Clustering.features Reading.no_text)
                (filter Clustering.large_enough
                        (rows (Clustering.with_new_gen_share Sample.no_airlines)))))
        (fun fitted =>
           Clustering.Call
             (Clustering.KMeans_fit 4 (Some Clustering.random_state) 10
                (snd fitted))
             (k fitted)).
Proof.
  apply (clustering_fits_whatever_rows_remain Reading.no_text
           (Sample.files_with_scores Sample.no_airlines)
           (df := Sample.no_airlines)).
  - reflexivity.
  - reflexivity.
Defined.

(** C1, as stated, fails: with three airlines in the scores table the script
    raises nothing of its own and comes to fit the 4-cluster model on three
    rows; with an empty table its first step is to fit the scaler on no row. *)
Lemma four_clusters_are_fitted_on_three_rows :
  List.length (filter Clustering.large_enough (rows Sample.three_airlines)) = 3%nat
  /\ List.length Sample.three_X_scaled = 3%nat
  /\ Clustering.reaches
       (Clustering.run Reading.no_text
          (Sample.files_with_scores Sample.three_airlines))
       (Clustering.KMeans_fit 4 (Some Clustering.random_state) 10
          Sample.three_X_scaled)
  /\ exists k,
       Clustering.run Reading.no_text
         (Sample.files_with_scores Sample.no_airlines)
       = Clustering.Call (Clustering.StandardScaler_fit_transform []) k.
Proof.
  split; [reflexivity|]. split; [reflexivity|]. split.
  - apply Clustering.reaches_later
      with (r := (Sample.three_scaler, Sample.three_X_scaled)).
    apply Clustering.reaches_now.
  - eexists. reflexivity.
Qed.

(** C7 on the code: when the scores file is absent [run] returns, without a
    call to the library and without a file written, where steps 3 and 4
    raise [FileNotFoundError] for their own missing input. *)
Theorem clustering_returns_when_scores_are_missing
    (parse_float : string -> option num) (W : Type)
    (h : Clustering.handler W) (w : W)
    fleet features clusters scaler knn elbow metrics :
  let fs := mkFileSystem fleet features None clusters scaler knn elbow metrics in
  Clustering.run parse_float fs = Clustering.Ret fs
  /\ Clustering.interp h (Clustering.run parse_float fs) w = (Ok fs, w)
  /\ BuildScores.main parse_float
       (mkFileSystem fleet None None clusters scaler knn elbow metrics)
     = Raised (FileNotFoundError "data/processed/airlines_features.csv")
  /\ GenerateFeatures.main parse_float
       (mkFileSystem None features None clusters scaler knn elbow metrics)
     = Raised (FileNotFoundError "data/processed/fleet_enriched_v2.csv").
Proof. repeat split. Qed.

(* ------------------------------------------------------------------ *)
(** ** The index across the three tables *)

Lemma with_new_gen_share_index df :
  Forall Reading.index_in_unit (rows df) ->
  Forall Reading.index_in_unit (rows (Clustering.with_new_gen_share df)).
Proof.
  unfold Clustering.with_new_gen_share.
  destruct (has_column df "new_gen_share"); [auto|]. simpl.
  intros H. apply Forall_map. eapply Forall_impl; [|exact H].
  intros a Ha. exact Ha.
Qed.

(** C3: in each of the three tables every row has its [modernity_index] in
    [0, 1]: in the features table step 3 builds from any fleet, in the scores
    table step 4 builds from any features table (a numeric index above 1
    leaves as 1), and in the tables left by a run of the three steps that
    ends well. *)
Theorem modernity_index_stays_in_unit (parse_float : string -> option num) :
  (forall df,
      Forall Reading.index_in_unit
             (rows (GenerateFeatures.build_stats parse_float df)))
  /\ (forall df,
         Forall Reading.index_in_unit
                (rows (BuildScores.build_scores parse_float df)))
  /\ (forall df r,
         In r (rows df) -> BuildScores.large_enough r = true ->
         Reading.above 1 (to_numeric parse_float (Airline.modernity_index r)) ->
         exists a,
           In a (rows (BuildScores.build_scores parse_float df))
           /\ a = BuildScores.sanitize parse_float r
           /\ Airline.modernity_index a = CNum (Fin 1))
  /\ (forall W (h : Clustering.handler W) fs w,
         match fst (Clustering.interp h (Main.steps parse_float fs) w) with
         | Ok fs' => Reading.tables_in_unit fs'
         | Raised _ => True
         end).
Proof.
  split; [apply features_modernity_in_unit|].
  split; [apply scores_modernity_in_unit|].
  split.
  - intros df r Hr Hl Habove. exists (BuildScores.sanitize parse_float r).
    split; [|split; [reflexivity|]].
    + simpl. apply in_map. apply filter_In. now split.
    + simpl. now apply clamp_above_one.
  - intros W h fs w. unfold Main.steps.
    rewrite interp_pbind, interp_lift.
    destruct (GenerateFeatures.main parse_float fs) as [fs1|e] eqn:E1;
      [|exact I].
    rewrite interp_pbind, interp_lift.
    destruct (BuildScores.main parse_float fs1) as [fs2|e] eqn:E2; [|exact I].
    unfold GenerateFeatures.main in E1.
    destruct (DATA_FLEET_ENRICHED fs) as [fleet|]; [|discriminate].
    destruct (GenerateFeatures.require_columns _ _ _); [|discriminate].
    simpl in E1. injection E1 as <-.
    unfold BuildScores.main in E2. cbn [FILE_FEATURES write_features] in E2.
    destruct (filter _ ["fleet_size"; "modernity_index"]); [|discriminate].
    injection E2 as <-.
    unfold Clustering.run. simpl FILE_SCORES. cbv iota.
    destruct (Clustering.interp h _ w) as [[fs3|e] w'] eqn:E3; [|exact I].
    apply cluster_scores_ok in E3.
    destruct E3 as (sc & Xs & km & el & sp & knn & metrics & comps
                    & w1 & w2 & w3 & w4 & w5 & _ & _ & Hlen & _ & _ & _
                    & Hlenc & ->).
    unfold Reading.tables_in_unit.
    cbn [FILE_FEATURES FILE_SCORES FILE_CLUSTERS write_artifacts write_scores
         write_features rows].
    split; [apply features_modernity_in_unit|].
    split; [apply scores_modernity_in_unit|].
    apply Forall_map with (f := airline) (P := Reading.index_in_unit).
    match goal with
    | |- context [rows (mkDataFrame ?c ?r)] =>
        change (rows (mkDataFrame c r)) with r
    end.
    rewrite (proj1 (clustered_airlines _ _ _ Hlen Hlenc)).
    apply Forall_forall. intros row Hrow. apply filter_In in Hrow.
    destruct Hrow as [Hrow _]. revert row Hrow. apply Forall_forall.
    apply with_new_gen_share_index. apply scores_modernity_in_unit.
Qed.

(* ------------------------------------------------------------------ *)
(** ** The elbow record *)

(** X1: the elbow record of a run that ends well lists [k] from 1 to 9 and, at
    the same positions, the nine values of [inertia_] the library returned
    for these [k] on the standardized matrix: the matrix the library returned,
    with the scaler that is persisted, for the features of the rows that pass
    the fleet filter. *)
Theorem elbow_record_is_aligned
    (parse_float : string -> option num) (W : Type)
    (h : Clustering.handler W) fs df w fs' w' :
  FILE_SCORES fs = Some df ->
  Clustering.interp h (Clustering.run parse_float fs) w = (Ok fs', w') ->
  exists el sc Xs w1,
    h _ (Clustering.StandardScaler_fit_transform
           (map (Clustering.features parse_float)
                (filter Clustering.large_enough
                        (rows (Clustering.with_new_gen_share df))))) w
    = (Ok (sc, Xs), w1)
    /\ scaler_pkl fs' = Some sc
    /\ elbow_data_json fs' = Some el
    /\ elbow_k el = seq 1 9
    /\ List.length (elbow_inertia el) = List.length (elbow_k el)
    /\ Forall2 (Clustering.fitted_inertia h Xs) (elbow_k el) (elbow_inertia el).
Proof.
  intros Hdf H. unfold Clustering.run in H. rewrite Hdf in H.
  apply cluster_scores_ok in H.
  destruct H as (sc & Xs & km & el & sp & knn & metrics & comps
                 & w1 & w2 & w3 & w4 & w5 & Hsc & _ & _ & Hel & _ & _ & _ & ->).
  apply elbow_ok in Hel. simpl in Hel. destruct Hel as (Hk & vs & Hv & Hall).
  exists el, sc, Xs, w1. split; [exact Hsc|]. simpl. rewrite Hk, Hv. simpl.
  split; [reflexivity|]. split; [reflexivity|]. split; [reflexivity|].
  split; [|exact Hall].
  symmetry. apply (Forall2_length Hall).
Qed.

Lemma elbow_record_is_aligned_witness :
  exists el sc Xs w1,
    @Sample.transcript Sample.sixteen_test _
      (Clustering.StandardScaler_fit_transform
         (map (Clustering.features Reading.no_text)
              (filter Clustering.large_enough
                      (rows (Clustering.with_new_gen_share
                               Sample.sixteen_airlines))))) 0%nat
    = (Ok (sc, Xs), w1)
    /\ scaler_pkl Sample.sixteen_files = Some sc
    /\ elbow_data_json Sample.sixteen_files = Some el
    /\ elbow_k el = seq 1 9
    /\ List.length (elbow_inertia el) = List.length (elbow_k el)
    /\ Forall2 (Clustering.fitted_inertia
                  (Sample.transcript Sample.sixteen_test) Xs)
               (elbow_k el) (elbow_inertia el).
Proof.
  apply (@elbow_record_is_aligned Reading.no_text nat
           (Sample.transcript Sample.sixteen_test)
           (Sample.files_with_scores Sample.sixteen_airlines)
           Sample.sixteen_airlines 0%nat Sample.sixteen_files 17%nat).
  - reflexivity.
  - vm_compute. reflexivity.
Defined.

(* ------------------------------------------------------------------ *)
(** ** The round trip through the persisted scaler and classifier *)

Section Votes.
Import Inference.

Lemma votes_disjoint ballot a l :
  a <> l -> (votes ballot a + votes ballot l <= List.length ballot)%nat.
Proof.
  intros Hne. unfold votes. induction ballot as [|b t IH]; simpl; [lia|].
  destruct (Z.eq_dec b a) as [Ea|Na], (Z.eq_dec b l) as [El|Nl]; lia.
Qed.

Variable ballot : list Z.

(** [a] is at least as good an answer as [b]: more votes, or as many and not
    a larger label. *)
Let precedes (a b : Z) : Prop :=
  (votes ballot b < votes ballot a)%nat
  \/ (votes ballot a = votes ballot b /\ (a <= b)%Z).

Lemma better_precedes a b :
  (better ballot a b = a \/ better ballot a b = b)
  /\ precedes (better ballot a b) a /\ precedes (better ballot a b) b.
Proof.
  unfold better, precedes.
  destruct (Nat.ltb_spec (votes ballot b) (votes ballot a)) as [Hlt|Hge];
    cbn [orb]; [split; [now left|lia]|].
  destruct (Nat.eqb_spec (votes ballot a) (votes ballot b)) as [He|Hne];
    cbn [andb]; [|split; [now right|lia]].
  destruct (Z.leb_spec a b); (split; [tauto|lia]).
Qed.

Lemma precedes_trans a b c : precedes a b -> precedes b c -> precedes a c.
Proof. unfold precedes. lia. Qed.

Lemma fold_better_precedes t acc :
  let m := fold_left (better ballot) t acc in
  (m = acc \/ In m t) /\ precedes m acc /\ forall a, In a t -> precedes m a.
Proof.
  revert acc. induction t as [|b t IH]; intros acc; cbn [fold_left].
  - split; [now left|]. split; [unfold precedes; lia|intros a []].
  - destruct (IH (better ballot acc b)) as (Hm & Hacc & Hall).
    destruct (better_precedes acc b) as (Hb & Hb1 & Hb2).
    split; [|split].
    + destruct Hm as [->|Hm]; [|right; now right].
      destruct Hb as [->| ->]; [now left|right; now left].
    + exact (precedes_trans Hacc Hb1).
    + intros a [<-|Ha]; [exact (precedes_trans Hacc Hb2)|now apply Hall].
Qed.

End Votes.

(** The answer of a vote is the most voted label, the smallest at a tie. *)
Lemma majority_most_voted ballot :
  ballot <> [] ->
  exists l, Inference.majority ballot = Some l /\ Reading.most_voted ballot l.
Proof.
  destruct ballot as [|l0 t]; [contradiction|]. intros _.
  set (ballot := l0 :: t).
  destruct (fold_better_precedes ballot t l0) as (Hm & Hacc & Hall).
  set (m := fold_left (Inference.better ballot) t l0) in *.
  exists m. split; [reflexivity|].
  assert (Hin : In m ballot) by (destruct Hm as [->|Hm]; [now left|now right]).
  assert (Hpos : (1 <= Inference.votes ballot m)%nat).
  { apply (count_occ_In Z.eq_dec) in Hin. unfold Inference.votes. lia. }
  assert (Hcmp : forall a,
             (Inference.votes ballot a < Inference.votes ballot m)%nat
             \/ (Inference.votes ballot m = Inference.votes ballot a
                 /\ (m <= a)%Z)).
  { intros a. destruct (in_dec Z.eq_dec a ballot) as [Ha|Ha].
    - destruct Ha as [<-|Ha]; [exact Hacc|now apply Hall].
    - left. apply (count_occ_not_In Z.eq_dec) in Ha.
      unfold Inference.votes at 1. lia. }
  split; [exact Hin|]. split; intros a; specialize (Hcmp a); lia.
Qed.

Lemma insert_by_distance_length p l :
  List.length (Inference.insert_by_distance p l) = S (List.length l).
Proof.
  induction l as [|h t IH]; simpl; [reflexivity|].
  destruct (Inference.num_leb (fst p) (fst h)); simpl; [reflexivity|].
  now rewrite IH.
Qed.

Lemma by_distance_length l :
  List.length (Inference.by_distance l) = List.length l.
Proof.
  induction l as [|p l IH]; simpl; [reflexivity|].
  now rewrite insert_by_distance_length, IH.
Qed.

Lemma neighbors_length knn x :
  List.length (Inference.neighbors knn x)
  = Nat.min (n_neighbors knn)
            (List.length (combine (fit_X knn) (fit_y knn))).
Proof.
  unfold Inference.neighbors.
  now rewrite length_map, length_firstn, by_distance_length, length_map.
Qed.

(** The answer of the classifier for any vector: none when it holds fewer
    reference points than neighbours, else the most voted label of a full
    ballot, which is any label that more than half of the ballot carries. *)
Lemma predict_most_voted knn x :
  (0 < n_neighbors knn)%nat ->
  let ballot := Inference.neighbors knn x in
  if (List.length (combine (fit_X knn) (fit_y knn)) <? n_neighbors knn)%nat
  then Inference.predict knn x = None
  else exists l,
         Inference.predict knn x = Some l
         /\ List.length ballot = n_neighbors knn
         /\ Reading.most_voted ballot l
         /\ forall own,
              (n_neighbors knn < 2 * Inference.votes ballot own)%nat ->
              l = own.
Proof.
  intros Hpos ballot. unfold Inference.predict.
  destruct (Nat.ltb_spec (List.length (combine (fit_X knn) (fit_y knn)))
              (n_neighbors knn)) as [Hlt|Hge]; [reflexivity|].
  assert (Hlen : List.length ballot = n_neighbors knn)
    by (unfold ballot; rewrite neighbors_length; lia).
  assert (Hne : ballot <> [])
    by (intros E; rewrite E in Hlen; simpl in Hlen; lia).
  destruct (majority_most_voted Hne) as (l & Hl & Hmost).
  exists l. split; [exact Hl|]. split; [exact Hlen|]. split; [exact Hmost|].
  intros own Hown. destruct (Z.eq_dec l own) as [E|Hneq]; [exact E|].
  destruct Hmost as (_ & Hmax & _). specialize (Hmax own).
  pose proof (votes_disjoint ballot Hneq) as Hsum. lia.
Qed.

(** C2, as amended: after a run that ends well with a library that fits what
    it says, the persisted classifier holds five neighbours and the training
    part of the split of the standardized rows and their cluster ids.  For
    every row of the clusters table, the round trip through the persisted
    scaler and classifier returns the most voted label among the five
    training points nearest to the row, the smallest label at a tie (and no
    answer when fewer than five training points are held); this is the row's
    own [cluster] whenever three or more of the five carry it. *)
Theorem round_trip_returns_the_most_voted_of_five
    (parse_float : string -> option num) (W : Type)
    (h : Clustering.handler W) fs df w fs' w' :
  Clustering.faithful h ->
  FILE_SCORES fs = Some df ->
  Clustering.interp h (Clustering.run parse_float fs) w = (Ok fs', w') ->
  exists out sc knn sp,
    FILE_CLUSTERS fs' = Some out
    /\ scaler_pkl fs' = Some sc
    /\ knn_model_pkl fs' = Some knn
    /\ knn = mkKnn 5 (Clustering.X_train sp) (Clustering.y_train sp)
    /\ (exists w3 w4,
          h _ (Clustering.train_test_split
                 (map (fun c => Inference.transform sc
                                  (Clustering.features parse_float (airline c)))
                      (rows out))
                 (map cluster (rows out)) (2 # 10)
                 (Some Clustering.random_state)
                 (Some (map cluster (rows out)))) w3
          = (Ok sp, w4))
    /\ forall c,
         In c (rows out) ->
         let x := Inference.transform sc
                    (Clustering.features parse_float (airline c)) in
         let ballot := Inference.neighbors knn x in
         if (List.length (combine (Clustering.X_train sp)
                                  (Clustering.y_train sp)) <? 5)%nat
         then Inference.predict knn x = None
         else exists l,
                Inference.predict knn x = Some l
                /\ List.length ballot = 5%nat
                /\ Reading.most_voted ballot l
                /\ ((3 <= Inference.votes ballot (cluster c))%nat ->
                    l = cluster c).
Proof.
  intros [Hscaler Hfit] Hdf H. unfold Clustering.run in H. rewrite Hdf in H.
  apply cluster_scores_ok in H.
  destruct H as (sc & Xs & km & el & sp & knn & metrics & comps
                 & w1 & w2 & w3 & w4 & w5
                 & Hsc & _ & Hlen & _ & Hsp & Hknn & Hlenc & ->).
  apply Hscaler in Hsc. apply Hfit in Hknn. subst Xs knn.
  destruct (clustered_airlines _ _ _ Hlen Hlenc) as [Hair Hclu].
  eexists _, sc, _, sp. cbn [FILE_CLUSTERS scaler_pkl knn_model_pkl write_artifacts].
  split; [reflexivity|]. split; [reflexivity|]. split; [reflexivity|].
  split; [reflexivity|]. split.
  - exists w3, w4. cbn [rows]. rewrite Hclu.
    rewrite <- Hsp. f_equal. f_equal.
    rewrite <- Hair at 2. now rewrite !map_map.
  - intros c _. cbv zeta.
    set (x := Inference.transform sc
                (Clustering.features parse_float (airline c))).
    pose proof (@predict_most_voted
                  (mkKnn 5 (Clustering.X_train sp) (Clustering.y_train sp)) x)
      as Hp.
    cbn [n_neighbors fit_X fit_y] in Hp. specialize (Hp ltac:(lia)).
    cbv zeta in Hp.
    destruct (List.length (combine (Clustering.X_train sp)
                                   (Clustering.y_train sp)) <? 5)%nat;
      [exact Hp|].
    destruct Hp as (l & Hl & Hlen5 & Hmost & Hown).
    exists l. split; [exact Hl|]. split; [exact Hlen5|].
    split; [exact Hmost|]. intros Hthree. apply Hown. lia.
Qed.

Lemma transcript_faithful test : Clustering.faithful (Sample.transcript test).
Proof.
  split.
  - intros X w sc Xs w' H. simpl in H.
    destruct (Sample.matrix_eqb X Sample.sixteen_X); [|discriminate].
    now injection H as <- <- _.
  - intros n X y w knn w' H. simpl in H. now injection H as <- _.
Qed.

Lemma round_trip_returns_the_most_voted_of_five_witness :
  exists out sc knn sp,
    FILE_CLUSTERS Sample.sixteen_files = Some out
    /\ scaler_pkl Sample.sixteen_files = Some sc
    /\ knn_model_pkl Sample.sixteen_files = Some knn
    /\ knn = mkKnn 5 (Clustering.X_train sp) (Clustering.y_train sp)
    /\ (exists w3 w4,
          @Sample.transcript Sample.sixteen_test _
            (Clustering.train_test_split
               (map (fun c => Inference.transform sc
                                (Clustering.features Reading.no_text (airline c)))
                    (rows out))
               (map cluster (rows out)) (2 # 10)
               (Some Clustering.random_state)
               (Some (map cluster (rows out)))) w3
          = (Ok sp, w4))
    /\ forall c,
         In c (rows out) ->
         let x := Inference.transform sc
                    (Clustering.features Reading.no_text (airline c)) in
         let ballot := Inference.neighbors knn x in
         if (List.length (combine (Clustering.X_train sp)
                                  (Clustering.y_train sp)) <? 5)%nat
         then Inference.predict knn x = None
         else exists l,
                Inference.predict knn x = Some l
                /\ List.length ballot = 5%nat
                /\ Reading.most_voted ballot l
                /\ ((3 <= Inference.votes ballot (cluster c))%nat ->
                    l = cluster c).
Proof.
  apply (@round_trip_returns_the_most_voted_of_five Reading.no_text nat
           (Sample.transcript Sample.sixteen_test)
           (Sample.files_with_scores Sample.sixteen_airlines)
           Sample.sixteen_airlines 0%nat Sample.sixteen_files 17%nat).
  - apply transcript_faithful.
  - reflexivity.
  - vm_compute. reflexivity.
Defined.

(** On the sixteen airlines, three votes are not always there: the
    fifteenth row is recorded in cluster 3, its five nearest training points
    carry the labels 1, 1, 2, 3 and 3 in some order, so that no label has
    three votes, and the round trip answers 1, the smaller of the two most
    voted. *)
Example most_voted_need_not_have_three_votes :
  exists out sc knn c,
    FILE_CLUSTERS Sample.sixteen_files = Some out
    /\ scaler_pkl Sample.sixteen_files = Some sc
    /\ knn_model_pkl Sample.sixteen_files = Some knn
    /\ nth_error (rows out) 14 = Some c
    /\ cluster c = 3%Z
    /\ let ballot :=
         Inference.neighbors knn
           (Inference.transform sc
              (Clustering.features Reading.no_text (airline c))) in
       map (Inference.votes ballot) [0; 1; 2; 3]%Z = [0; 2; 1; 2]%nat
       /\ Inference.predict knn
            (Inference.transform sc
               (Clustering.features Reading.no_text (airline c)))
          = Some 1%Z.
Proof.
  eexists _, _, _, _.
  split; [vm_compute; reflexivity|].
  split; [reflexivity|]. split; [reflexivity|]. split; [reflexivity|].
  split; [reflexivity|]. split; vm_compute; reflexivity.
Qed.

(** The sample scaler is the one fitted on the sixteen airlines: the mean of
    the fleet sizes is 10, their variance is the square of 6, and the other
    columns are constant. *)
Example sixteen_scaler_is_fitted :
  Sample.list_eqb Sample.num_eqb
    (map (fun j => Sample.mean_of (Sample.column j Sample.sixteen_X))
         [0; 1; 2; 3]%nat)
    (mean_ Sample.sixteen_scaler) = true
  /\ Sample.list_eqb Sample.num_eqb
       (map (fun j => Sample.variance_of (Sample.column j Sample.sixteen_X))
            [0; 1; 2; 3]%nat)
       [Fin (6 * 6); Fin 0; Fin 0; Fin 0] = true.
Proof. split; vm_compute; reflexivity. Qed.

(** The inertia the transcript reports for 1, 2, 3 and 4 clusters is the
    inertia of the partition it reports; with 4 clusters it is zero, the
    least there is. *)
Example sixteen_partitions_inertia :
  forallb
    (fun k =>
       Sample.num_eqb
         (Sample.inertia_of Sample.sixteen_X_scaled
            (Sample.sixteen_labels (fst (Sample.sixteen_partition k))))
         (snd (Sample.sixteen_partition k)))
    [1; 2; 3; 4]%nat = true.
Proof. vm_compute. reflexivity. Qed.

(** C2, as stated, fails.  On the sixteen airlines the 4-cluster partition
    is the four distinct feature vectors; the run ends well, the first row is
    recorded in cluster 0 and the round trip through the persisted scaler and
    classifier answers 1: its five nearest training points are itself and four
    of the ten airlines of the neighbouring cluster.  The same holds for every
    choice of the four test rows and every numbering of the four clusters. *)
Lemma round_trip_misses_the_small_cluster :
  (exists fs' out sc knn c,
      fst Sample.sixteen_run = Ok fs'
      /\ FILE_CLUSTERS fs' = Some out
      /\ scaler_pkl fs' = Some sc
      /\ knn_model_pkl fs' = Some knn
      /\ hd_error (rows out) = Some c
      /\ cluster c = 0%Z
      /\ Inference.predict knn
           (Inference.transform sc
              (Clustering.features Reading.no_text (airline c)))
         = Some 1%Z)
  /\ (forall test numbering,
         In test (Sample.subsets 4 (seq 0 16)) ->
         In numbering (Sample.permutations [0; 1; 2; 3]%Z) ->
         Sample.misses_first_row test numbering = true).
Proof.
  split.
  - eexists _, _, _, _, _.
    split; [vm_compute; reflexivity|].
    split; [reflexivity|]. split; [reflexivity|]. split; [reflexivity|].
    split; [reflexivity|]. split; [reflexivity|]. vm_compute. reflexivity.
  - assert (Hall : forallb
                     (fun test =>
                        forallb (Sample.misses_first_row test)
                                (Sample.permutations [0; 1; 2; 3]%Z))
                     (Sample.subsets 4 (seq 0 16)) = true)
      by (vm_compute; reflexivity).
    intros test numbering Htest Hnum.
    rewrite forallb_forall in Hall. specialize (Hall test Htest).
    rewrite forallb_forall in Hall. now apply Hall.
Qed.

(* ------------------------------------------------------------------ *)
(** ** Rows kept from one table to the next *)

(** X2: the features table has one row per airline name, and an airline has
    a row exactly when one of its aircraft passes the drops. *)
Theorem one_feature_row_per_airline
    (parse_float : string -> option num) (df : DataFrame Aircraft.t) :
  NoDup (map Airline.airline_name
             (rows (GenerateFeatures.build_stats parse_float df)))
  /\ forall X,
       In (Some X) (map Airline.airline_name
                        (rows (GenerateFeatures.build_stats parse_float df)))
       <-> (1 <= Reading.fleet_count parse_float X (rows df))%nat.
Proof.
  rewrite build_stats_rows, map_map.
  set (l := GenerateFeatures.prepare parse_float (rows df)).
  assert (Hnames :
            map (fun g => Airline.airline_name
                            (GenerateFeatures.row_of_group parse_float
                               (GenerateFeatures.diversity_col df) g))
                (GenerateFeatures.groupby l)
            = map Some (GenerateFeatures.group_keys l)).
  { rewrite <- groupby_keys, map_map. reflexivity. }
  rewrite Hnames. split.
  - apply Finite.Injective_map_NoDup; [|apply group_keys_NoDup].
    intros a b E. now injection E.
  - intros X. rewrite <- (group_size_count parse_float X (rows df)). fold l.
    rewrite in_map_iff. split.
    + intros (k & [= ->] & Hk). apply group_keys_In in Hk.
      destruct Hk as (r & Hr & Hn).
      assert (Hin : In r (filter (GenerateFeatures.in_group X) l)).
      { apply filter_In. split; [exact Hr|]. now apply in_group_iff. }
      destruct (filter (GenerateFeatures.in_group X) l);
        [contradiction|simpl; lia].
    + intros Hlen. exists X. split; [reflexivity|]. apply group_keys_In.
      destruct (filter (GenerateFeatures.in_group X) l) as [|r t] eqn:E;
        [simpl in Hlen; lia|].
      assert (Hin : In r (filter (GenerateFeatures.in_group X) l))
        by (rewrite E; now left).
      apply filter_In in Hin. destruct Hin as [Hr Hg].
      exists r. split; [exact Hr|]. now apply in_group_iff.
Qed.

(** X3: clustering drops and duplicates no row: the airlines of the clusters
    table are, in order, the rows of the scores table that pass the fleet
    filter. *)
Theorem clustering_keeps_every_row
    (parse_float : string -> option num) (W : Type)
    (h : Clustering.handler W) fs df w fs' w' :
  FILE_SCORES fs = Some df ->
  Clustering.interp h (Clustering.run parse_float fs) w = (Ok fs', w') ->
  exists out,
    FILE_CLUSTERS fs' = Some out
    /\ map airline (rows out)
       = filter Clustering.large_enough (rows (Clustering.with_new_gen_share df))
    /\ List.length (rows out)
       = List.length (filter Clustering.large_enough (rows df)).
Proof.
  intros Hdf H. unfold Clustering.run in H. rewrite Hdf in H.
  apply cluster_scores_ok in H.
  destruct H as (sc & Xs & km & el & sp & knn & metrics & comps
                 & w1 & w2 & w3 & w4 & w5
                 & _ & _ & Hlen & _ & _ & _ & Hlenc & ->).
  destruct (clustered_airlines _ _ _ Hlen Hlenc) as [Hair _].
  eexists. cbn [FILE_CLUSTERS write_artifacts].
  split; [reflexivity|]. cbn [rows]. split; [exact Hair|].
  rewrite <- (length_map airline), Hair.
  unfold Clustering.with_new_gen_share.
  destruct (has_column df "new_gen_share"); [reflexivity|]. cbn [rows].
  rewrite filter_map_invariant by reflexivity. apply length_map.
Qed.

Lemma clustering_keeps_every_row_witness :
  exists out,
    FILE_CLUSTERS Sample.sixteen_files = Some out
    /\ map airline (rows out)
       = filter Clustering.large_enough
                (rows (Clustering.with_new_gen_share Sample.sixteen_airlines))
    /\ List.length (rows out)
       = List.length (filter Clustering.large_enough
                             (rows Sample.sixteen_airlines)).
Proof.
  apply (@clustering_keeps_every_row Reading.no_text nat
           (Sample.transcript Sample.sixteen_test)
           (Sample.files_with_scores Sample.sixteen_airlines)
           Sample.sixteen_airlines 0%nat Sample.sixteen_files 17%nat).
  - reflexivity.
  - vm_compute. reflexivity.
Defined.

(* ================================================================== *)
(** * Further properties of the three steps *)

(* ------------------------------------------------------------------ *)
(** ** Required columns *)

Lemma has_column_In {R} (df : DataFrame R) c :
  has_column df c = true <-> In c (columns df).
Proof.
  unfold has_column. rewrite existsb_exists. split.
  - intros (x & Hx & E). apply String.eqb_eq in E. now subst.
  - intros H. exists c. split; [exact H|apply String.eqb_refl].
Qed.

Lemma absent_columns_In {R} (df : DataFrame R) cols c :
  In c (filter (fun c => negb (has_column df c)) cols)
  <-> In c cols /\ ~ In c (columns df).
Proof.
  rewrite filter_In, negb_true_iff, <- has_column_In.
  split; intros [H1 H2]; (split; [exact H1|]).
  - now rewrite H2.
  - now destruct (has_column df c); [contradiction H2|].
Qed.

Lemma no_absent_column {R} (df : DataFrame R) cols :
  filter (fun c => negb (has_column df c)) cols = []
  <-> Reading.has_columns df cols.
Proof.
  unfold Reading.has_columns. split.
  - intros H c Hc. destruct (has_column df c) eqn:E; [now apply has_column_In|].
    assert (Hin : In c (filter (fun c => negb (has_column df c)) cols)).
    { apply filter_In. split; [exact Hc|now rewrite E]. }
    rewrite H in Hin. contradiction.
  - intros H. apply filter_nil_iff. intros c Hc.
    apply H, has_column_In in Hc. now rewrite Hc.
Qed.

(** X4: step 3 ends well exactly when the fleet file is there with the four
    columns it requires, and then it only writes the features table.  When
    the file is absent it raises [FileNotFoundError]; when columns are absent
    it raises a [ValueError] that names exactly the required columns that are
    absent and lists the columns that are present. *)
Theorem generate_features_checks_its_input
    (parse_float : string -> option num) (fs : FileSystem) :
  let required := ["airline_name"; "country"; "region"; "entry_year"] in
  (forall fs',
      GenerateFeatures.main parse_float fs = Ok fs' <->
      exists df,
        DATA_FLEET_ENRICHED fs = Some df
        /\ Reading.has_columns df required
        /\ fs' = write_features (GenerateFeatures.build_stats parse_float df) fs)
  /\ (forall e,
         GenerateFeatures.main parse_float fs = Raised e ->
         match DATA_FLEET_ENRICHED fs with
         | None => e = FileNotFoundError "data/processed/fleet_enriched_v2.csv"
         | Some df =>
             exists missing,
               e = ValueError "fleet_enriched" missing (columns df)
               /\ missing <> []
               /\ forall c, In c missing <->
                            In c required /\ ~ In c (columns df)
         end).
Proof.
  intros required. unfold GenerateFeatures.main.
  destruct (DATA_FLEET_ENRICHED fs) as [df|].
  - unfold GenerateFeatures.require_columns.
    pose proof (no_absent_column df required) as Hnone.
    pose proof (absent_columns_In df required) as Hin.
    fold required.
    destruct (filter (fun c => negb (has_column df c)) required) as [|m ms];
      simpl.
    + split.
      * intros fs'. split.
        -- intros [= <-]. exists df. split; [reflexivity|].
           split; [now apply Hnone|reflexivity].
        -- intros (df' & [= <-] & _ & ->). reflexivity.
      * intros e [=].
    + split.
      * intros fs'. split; [discriminate|].
        intros (df' & [= <-] & Hcols & _). apply Hnone in Hcols. discriminate.
      * intros e [= <-]. exists (m :: ms).
        split; [reflexivity|]. split; [discriminate|exact Hin].
  - split.
    + intros fs'. split; [discriminate|]. intros (df & [=] & _).
    + intros e [= <-]. reflexivity.
Qed.

(* ------------------------------------------------------------------ *)
(** ** The statistics of a feature row *)

Lemma sum_cons x l :
  GenerateFeatures.sum (x :: l) = (x + GenerateFeatures.sum l)%Z.
Proof.
  unfold GenerateFeatures.sum. simpl.
  assert (H : forall l a, fold_left Z.add l a = (a + fold_left Z.add l 0)%Z).
  { clear. induction l as [|y l IH]; intros a; simpl; [lia|].
    rewrite (IH (a + y)%Z), (IH y). lia. }
  apply H.
Qed.

Lemma sum_le {A} (f g : A -> Z) l :
  (forall x, f x <= g x)%Z ->
  (GenerateFeatures.sum (map f l) <= GenerateFeatures.sum (map g l))%Z.
Proof.
  intros H. induction l as [|x l IH]; simpl; [reflexivity|].
  rewrite !sum_cons. specialize (H x). lia.
Qed.

Lemma sum_flags_bounds {A} (f : A -> Z) l :
  (forall x, 0 <= f x <= 1)%Z ->
  (0 <= GenerateFeatures.sum (map f l) <= Z.of_nat (List.length l))%Z.
Proof.
  intros H. induction l as [|x l IH]; simpl List.length; simpl map.
  - unfold GenerateFeatures.sum. simpl. lia.
  - rewrite sum_cons. specialize (H x). lia.
Qed.

Lemma num_geb_weaken x s t : (s <= t)%Q -> num_geb x t = true -> num_geb x s = true.
Proof.
  destruct x as [q| | |]; simpl; auto.
  intros Hst H. apply Qle_bool_iff in H. apply Qle_bool_iff.
  now apply Qle_trans with t.
Qed.

Lemma is_modern_flag parse_float t r :
  (0 <= GenerateFeatures.is_modern parse_float t r <= 1)%Z.
Proof. unfold GenerateFeatures.is_modern. destruct (num_geb _ _); lia. Qed.

Lemma is_modern_antitone parse_float s t r :
  (s <= t)%Q ->
  (GenerateFeatures.is_modern parse_float t r
   <= GenerateFeatures.is_modern parse_float s r)%Z.
Proof.
  intros Hst. unfold GenerateFeatures.is_modern.
  destruct (num_geb (GenerateFeatures.year parse_float r) t) eqn:E.
  - now rewrite (num_geb_weaken _ Hst E).
  - destruct (num_geb _ s); lia.
Qed.

Lemma nodup_length_le (l : list string) :
  (List.length (nodup string_dec l) <= List.length l)%nat.
Proof.
  induction l as [|x l IH]; simpl; [lia|].
  destruct (in_dec string_dec x l); simpl; lia.
Qed.

Lemma dropna_text_length_le (l : list (option string)) :
  (List.length (GenerateFeatures.dropna_text l) <= List.length l)%nat.
Proof.
  induction l as [|[s|] l IH]; simpl; lia.
Qed.

Lemma nunique_le_length {A} (col : A -> option string) (l : list A) :
  (GenerateFeatures.nunique (map col l) <= List.length l)%nat.
Proof.
  unfold GenerateFeatures.nunique.
  pose proof (nodup_length_le (GenerateFeatures.dropna_text (map col l))).
  pose proof (dropna_text_length_le (map col l)) as H2.
  rewrite length_map in H2. lia.
Qed.

(** X5: in every feature row the three counts are bounded by the fleet: the
    aircraft entered since 2015 are at most those entered since 2010, which
    are at most the fleet size; the diversity score is at most the fleet
    size, and it is 0 when the fleet table has neither an [aircraft_type] nor
    a [model_key] column. *)
Theorem feature_counts_are_bounded_by_the_fleet
    (parse_float : string -> option num) (df : DataFrame Aircraft.t)
    (a : Airline.t) :
  In a (rows (GenerateFeatures.build_stats parse_float df)) ->
  exists c15 c10 d n,
    Airline.modern_count_2015 a = of_Z c15
    /\ Airline.modern_count_2010 a = of_Z c10
    /\ Airline.diversity_score a = CNum (of_nat d)
    /\ Airline.fleet_size a = of_nat n
    /\ (0 <= c15 <= c10)%Z /\ (c10 <= Z.of_nat n)%Z
    /\ (d <= n)%nat
    /\ (GenerateFeatures.diversity_col df = None -> d = 0%nat).
Proof.
  rewrite build_stats_rows. intros Ha.
  apply in_map_iff in Ha. destruct Ha as ([k members] & <- & _).
  unfold GenerateFeatures.row_of_group, GenerateFeatures.finish,
    GenerateFeatures.agg. cbn [fst snd].
  exists (GenerateFeatures.sum
            (map (GenerateFeatures.is_modern parse_float 2015) members)),
         (GenerateFeatures.sum
            (map (GenerateFeatures.is_modern parse_float 2010) members)),
         (match GenerateFeatures.diversity_col df with
          | Some col => GenerateFeatures.nunique (map col members)
          | None => 0%nat
          end),
         (List.length members).
  cbn [Airline.modern_count_2015 Airline.modern_count_2010
       Airline.diversity_score Airline.fleet_size
       GenerateFeatures.sum_is_modern_2015 GenerateFeatures.sum_is_modern_2010
       GenerateFeatures.nunique_diversity].
  split; [reflexivity|]. split; [reflexivity|].
  split; [now destruct (GenerateFeatures.diversity_col df)|].
  split; [reflexivity|]. split; [split|split; [|split]].
  - apply (sum_flags_bounds _ members (is_modern_flag parse_float 2015)).
  - apply sum_le. intros r. now apply is_modern_antitone.
  - apply (sum_flags_bounds _ members (is_modern_flag parse_float 2010)).
  - destruct (GenerateFeatures.diversity_col df); [apply nunique_le_length|lia].
  - now intros ->.
Qed.

Lemma feature_counts_are_bounded_by_the_fleet_witness :
  exists c15 c10 d n,
    Airline.modern_count_2015
      (hd (Sample.airline "" 0 0 (CNum NaN))
          (rows (GenerateFeatures.build_stats Reading.no_text
                   Sample.fleet_with_blank))) = of_Z c15
    /\ Airline.modern_count_2010
         (hd (Sample.airline "" 0 0 (CNum NaN))
             (rows (GenerateFeatures.build_stats Reading.no_text
                      Sample.fleet_with_blank))) = of_Z c10
    /\ Airline.diversity_score
         (hd (Sample.airline "" 0 0 (CNum NaN))
             (rows (GenerateFeatures.build_stats Reading.no_text
                      Sample.fleet_with_blank))) = CNum (of_nat d)
    /\ Airline.fleet_size
         (hd (Sample.airline "" 0 0 (CNum NaN))
             (rows (GenerateFeatures.build_stats Reading.no_text
                      Sample.fleet_with_blank))) = of_nat n
    /\ (0 <= c15 <= c10)%Z /\ (c10 <= Z.of_nat n)%Z
    /\ (d <= n)%nat
    /\ (GenerateFeatures.diversity_col Sample.fleet_with_blank = None ->
        d = 0%nat).
Proof.
  apply (feature_counts_are_bounded_by_the_fleet Reading.no_text
           Sample.fleet_with_blank).
  left. reflexivity.
Defined.

Lemma clip_inside q : (0 <= q)%Q -> (q <= 1)%Q -> clip 0 1 (Fin q) = Fin q.
Proof.
  intros H0 H1. unfold clip.
  destruct (Qlt_le_dec q 0) as [Hlt|_].
  - exfalso. now apply (Qlt_not_le _ _ Hlt).
  - destruct (Qlt_le_dec 1 q) as [Hgt|_]; [|reflexivity].
    exfalso. now apply (Qlt_not_le _ _ Hgt).
Qed.

Lemma replace_positive n :
  (0 < n)%nat -> replace 0 1 (of_nat n) = of_nat n.
Proof.
  intros Hn. unfold replace, of_nat, of_Z.
  destruct (Qeq_bool (inject_Z (Z.of_nat n)) 0) eqn:E; [|reflexivity].
  apply Qeq_bool_iff in E. unfold Qeq in E. simpl in E. lia.
Qed.

(** X6: the index of a feature row is exactly the share of its fleet entered
    since 2015, and [pct_modern_2015] is a hundred times that share: the clip
    of step 9 and the guard on a zero fleet never change the value. *)
Theorem modernity_index_is_the_modern_share
    (parse_float : string -> option num) (df : DataFrame Aircraft.t)
    (a : Airline.t) :
  In a (rows (GenerateFeatures.build_stats parse_float df)) ->
  exists c n p q,
    Airline.modern_count_2015 a = of_Z c
    /\ Airline.fleet_size a = of_nat n
    /\ (0 < n)%nat
    /\ Airline.pct_modern_2015 a = Fin p
    /\ (p == 100 * inject_Z c / inject_Z (Z.of_nat n))%Q
    /\ Airline.modernity_index a = CNum (Fin q)
    /\ (q == inject_Z c / inject_Z (Z.of_nat n))%Q.
Proof.
  rewrite build_stats_rows. intros Ha.
  apply in_map_iff in Ha. destruct Ha as ([k members] & <- & Hg).
  pose proof (groupby_nonempty _ _ Hg) as Hne. simpl in Hne.
  unfold GenerateFeatures.row_of_group, GenerateFeatures.finish,
    GenerateFeatures.agg.
  cbn [fst snd Airline.modern_count_2015 Airline.fleet_size
       Airline.pct_modern_2015 Airline.modernity_index
       GenerateFeatures.sum_is_modern_2015].
  set (c := GenerateFeatures.sum
              (map (GenerateFeatures.is_modern parse_float 2015) members)).
  set (n := List.length members).
  assert (Hc : (0 <= c <= Z.of_nat n)%Z)
    by apply (sum_flags_bounds _ members (is_modern_flag parse_float 2015)).
  assert (Hpos : (0 < n)%nat)
    by (subst n; destruct members; [contradiction|simpl; lia]).
  assert (Hqn : ~ (inject_Z (Z.of_nat n) == 0)%Q).
  { unfold Qeq. simpl. lia. }
  unfold GenerateFeatures.pct. rewrite (replace_positive Hpos).
  assert (Hdiv : num_div (of_Z c) (of_nat n)
                 = Fin (inject_Z c / inject_Z (Z.of_nat n)))
    by (unfold of_nat, of_Z; apply num_div_fin; exact Hqn).
  rewrite Hdiv. cbn [num_mul]. rewrite num_div_fin by discriminate.
  assert (Hshare : (inject_Z c / inject_Z (Z.of_nat n) * 100 / 100
                    == inject_Z c / inject_Z (Z.of_nat n))%Q)
    by (field; exact Hqn).
  assert (Hz : (0 < inject_Z (Z.of_nat n))%Q).
  { rewrite <- (Zlt_Qlt 0). lia. }
  rewrite clip_inside.
  - exists c, n. do 2 eexists.
    split; [reflexivity|]. split; [reflexivity|]. split; [exact Hpos|].
    split; [reflexivity|]. split; [field; exact Hqn|].
    split; [reflexivity|exact Hshare].
  - rewrite Hshare. apply Qle_shift_div_l; [exact Hz|].
    rewrite Qmult_0_l. rewrite <- (Zle_Qle 0). lia.
  - rewrite Hshare. apply Qle_shift_div_r; [exact Hz|].
    rewrite Qmult_1_l. rewrite <- Zle_Qle. lia.
Qed.

Lemma modernity_index_is_the_modern_share_witness :
  exists c n p q,
    Airline.modern_count_2015
      (hd (Sample.airline "" 0 0 (CNum NaN))
          (rows (GenerateFeatures.build_stats Reading.no_text
                   Sample.fleet_with_blank))) = of_Z c
    /\ Airline.fleet_size
         (hd (Sample.airline "" 0 0 (CNum NaN))
             (rows (GenerateFeatures.build_stats Reading.no_text
                      Sample.fleet_with_blank))) = of_nat n
    /\ (0 < n)%nat
    /\ Airline.pct_modern_2015
         (hd (Sample.airline "" 0 0 (CNum NaN))
             (rows (GenerateFeatures.build_stats Reading.no_text
                      Sample.fleet_with_blank))) = Fin p
    /\ (p == 100 * inject_Z c / inject_Z (Z.of_nat n))%Q
    /\ Airline.modernity_index
         (hd (Sample.airline "" 0 0 (CNum NaN))
             (rows (GenerateFeatures.build_stats Reading.no_text
                      Sample.fleet_with_blank))) = CNum (Fin q)
    /\ (q == inject_Z c / inject_Z (Z.of_nat n))%Q.
Proof.
  apply (modernity_index_is_the_modern_share Reading.no_text
           Sample.fleet_with_blank).
  left. reflexivity.
Defined.

(* ------------------------------------------------------------------ *)
(** ** The members of a group and their order *)

Lemma hd_error_filter {A} (p : A -> bool) (l : list A) :
  hd_error (filter p l) = find p l.
Proof.
  induction l as [|x l IH]; simpl; [reflexivity|].
  destruct (p x); [reflexivity|exact IH].
Qed.

(** The members of the group of [X] are the cleaned rows of the input that
    pass the drops and carry the name [X], in file order. *)
Lemma group_members parse_float X l :
  filter (GenerateFeatures.in_group X) (GenerateFeatures.prepare parse_float l)
  = map (GenerateFeatures.clean parse_float)
        (filter (fun r => Reading.survives parse_float r && Reading.named X r) l).
Proof.
  induction l as [|r l IH]; [reflexivity|].
  change (r :: l) with ([r] ++ l)%list.
  rewrite prepare_app, filter_app, IH. clear IH.
  simpl app. cbn [filter].
  destruct (Reading.survives parse_float r) eqn:Hs.
  - assert (Hp : GenerateFeatures.prepare parse_float [r]
                 = [GenerateFeatures.clean parse_float r]).
    { unfold GenerateFeatures.prepare. simpl.
      rewrite <- survives_clean in Hs. apply andb_true_iff in Hs.
      destruct Hs as [Hg Hy]. rewrite Hy. simpl. now rewrite Hg. }
    rewrite Hp. simpl.
    assert (Hn : GenerateFeatures.in_group X (GenerateFeatures.clean parse_float r)
                 = Reading.named X r).
    { unfold GenerateFeatures.in_group, Reading.named. simpl.
      now destruct (Aircraft.airline_name r). }
    rewrite Hn. now destruct (Reading.named X r).
  - rewrite (prepare_dropped parse_float r Hs). reflexivity.
Qed.

Lemma present_Some v : present v = true -> exists s, v = Some s.
Proof. destruct v as [s|]; [now exists s|discriminate]. Qed.

(** X7: the country and the region of a feature row are those, stripped, of
    the first input row of that airline that passes the drops; both are
    present and not empty. *)
Theorem feature_row_follows_the_first_aircraft
    (parse_float : string -> option num) (df : DataFrame Aircraft.t)
    (a : Airline.t) (X : string) :
  In a (rows (GenerateFeatures.build_stats parse_float df)) ->
  Airline.airline_name a = Some X ->
  exists r,
    Reading.first_survivor parse_float X (rows df) = Some r
    /\ Airline.country a = str_strip (Aircraft.country r)
    /\ Airline.region a = str_strip (Aircraft.region r)
    /\ present (Airline.country a) = true
    /\ present (Airline.region a) = true.
Proof.
  rewrite build_stats_rows. intros Ha HX.
  apply in_map_iff in Ha. destruct Ha as (g & <- & Hg).
  pose proof (groupby_nonempty _ _ Hg) as Hne.
  unfold GenerateFeatures.groupby in Hg. apply in_map_iff in Hg.
  destruct Hg as (k & <- & _). simpl in HX. injection HX as ->.
  cbn [snd] in Hne. rewrite group_members in Hne.
  unfold GenerateFeatures.row_of_group, GenerateFeatures.finish,
    GenerateFeatures.agg.
  cbn [fst snd Airline.country Airline.region
       GenerateFeatures.first_country GenerateFeatures.first_region].
  rewrite group_members. unfold Reading.first_survivor.
  rewrite <- hd_error_filter.
  destruct (filter (fun r => Reading.survives parse_float r && Reading.named X r)
                   (rows df)) as [|r rest] eqn:E; [contradiction|].
  assert (Hr : In r (filter (fun r => Reading.survives parse_float r
                                      && Reading.named X r) (rows df)))
    by (rewrite E; now left).
  apply filter_In in Hr. destruct Hr as [_ Hr].
  apply andb_true_iff in Hr. destruct Hr as [Hs _].
  unfold Reading.survives in Hs. apply andb_true_iff in Hs.
  destruct Hs as [Hs Hregion]. apply andb_true_iff in Hs.
  destruct Hs as [_ Hcountry].
  destruct (present_Some _ Hcountry) as (c & Ec).
  destruct (present_Some _ Hregion) as (g & Eg).
  exists r. split; [reflexivity|].
  unfold GenerateFeatures.first. simpl. rewrite Ec, Eg in *. simpl.
  repeat split; assumption.
Qed.

Lemma feature_row_follows_the_first_aircraft_witness :
  exists r,
    Reading.first_survivor Reading.no_text "Air X"
      (rows Sample.fleet_without_country) = Some r
    /\ Airline.country
         (hd (Sample.airline "" 0 0 (CNum NaN))
             (rows (GenerateFeatures.build_stats Reading.no_text
                      Sample.fleet_without_country)))
       = str_strip (Aircraft.country r)
    /\ Airline.region
         (hd (Sample.airline "" 0 0 (CNum NaN))
             (rows (GenerateFeatures.build_stats Reading.no_text
                      Sample.fleet_without_country)))
       = str_strip (Aircraft.region r)
    /\ present
         (Airline.country
            (hd (Sample.airline "" 0 0 (CNum NaN))
                (rows (GenerateFeatures.build_stats Reading.no_text
                         Sample.fleet_without_country)))) = true
    /\ present
         (Airline.region
            (hd (Sample.airline "" 0 0 (CNum NaN))
                (rows (GenerateFeatures.build_stats Reading.no_text
                         Sample.fleet_without_country)))) = true.
Proof.
  apply (feature_row_follows_the_first_aircraft Reading.no_text
           Sample.fleet_without_country).
  - left. reflexivity.
  - reflexivity.
Defined.

Lemma leb_total k h : String.leb k h = false -> String.leb h k = true.
Proof.
  unfold String.leb. rewrite (String.compare_antisym h k).
  destruct (String.compare k h); simpl; congruence.
Qed.

Lemma leb_neq_ltb k h : String.leb k h = true -> k <> h -> String.ltb k h = true.
Proof.
  unfold String.leb, String.ltb. intros Hle Hne.
  destruct (String.compare k h) eqn:E; try reflexivity; try discriminate.
  apply String.compare_eq_iff in E. contradiction.
Qed.

Lemma insert_key_sorted k l :
  Sorted (fun a b => String.leb a b = true) l ->
  Sorted (fun a b => String.leb a b = true) (GenerateFeatures.insert_key k l).
Proof.
  induction l as [|h t IH]; intros Hs; simpl.
  - repeat constructor.
  - destruct (String.leb k h) eqn:E.
    + constructor; [exact Hs|]. now constructor.
    + inversion Hs as [|? ? Ht Hhd]; subst. constructor; [now apply IH|].
      destruct t as [|h' t']; simpl.
      * constructor. now apply leb_total.
      * destruct (String.leb k h'); constructor.
        -- now apply leb_total.
        -- now inversion Hhd.
Qed.

Lemma sort_keys_sorted l :
  Sorted (fun a b => String.leb a b = true) (GenerateFeatures.sort_keys l).
Proof.
  induction l as [|k l IH]; simpl; [constructor|]. now apply insert_key_sorted.
Qed.

Lemma sorted_strict l :
  NoDup l -> Sorted (fun a b => String.leb a b = true) l ->
  Sorted (fun a b => String.ltb a b = true) l.
Proof.
  induction l as [|a l IH]; intros Hnd Hs; [constructor|].
  inversion Hnd as [|? ? Hnot Hnd']; subst.
  inversion Hs as [|? ? Hs' Hhd]; subst.
  constructor; [now apply IH|].
  destruct l as [|b l']; constructor.
  inversion Hhd; subst. apply leb_neq_ltb; [assumption|].
  intros ->. apply Hnot. now left.
Qed.

Lemma sorted_adjacent {A} (R : A -> A -> Prop) l :
  Sorted R l ->
  forall i x y, nth_error l i = Some x -> nth_error l (S i) = Some y -> R x y.
Proof.
  induction 1 as [|a l Hs IH Hhd]; intros i x y Hx Hy.
  - now destruct i.
  - destruct i as [|i]; simpl in *.
    + injection Hx as <-. destruct l as [|b l']; [discriminate|].
      injection Hy as <-. now inversion Hhd.
    + now apply (IH i).
Qed.

(** X8: the rows of the features table are in increasing order of airline
    name (code point by code point), with no name twice. *)
Theorem features_are_sorted_by_airline
    (parse_float : string -> option num) (df : DataFrame Aircraft.t) :
  Reading.sorted_by_name (rows (GenerateFeatures.build_stats parse_float df)).
Proof.
  unfold Reading.sorted_by_name. rewrite build_stats_rows.
  set (l := GenerateFeatures.prepare parse_float (rows df)).
  intros i a b Ha Hb.
  rewrite nth_error_map in Ha, Hb.
  destruct (nth_error (GenerateFeatures.groupby l) i) as [g1|] eqn:E1;
    [|discriminate].
  destruct (nth_error (GenerateFeatures.groupby l) (S i)) as [g2|] eqn:E2;
    [|discriminate].
  injection Ha as <-. injection Hb as <-.
  exists (fst g1), (fst g2). split; [reflexivity|]. split; [reflexivity|].
  assert (Hsorted : Sorted (fun a b => String.ltb a b = true)
                           (GenerateFeatures.group_keys l)).
  { apply sorted_strict; [apply group_keys_NoDup|].
    unfold GenerateFeatures.group_keys. apply sort_keys_sorted. }
  apply (sorted_adjacent Hsorted i); rewrite <- groupby_keys, nth_error_map.
  - now rewrite E1.
  - now rewrite E2.
Qed.

(* ------------------------------------------------------------------ *)
(** ** Step 4 applied twice, and after step 3 *)

Lemma clamp_valid parse_float q :
  (0 <= q)%Q -> (q <= 1)%Q ->
  BuildScores.clamp parse_float (CNum (Fin q)) = CNum (Fin q).
Proof.
  intros H0 H1. unfold BuildScores.clamp. simpl to_numeric. simpl fillna.
  now rewrite clip_inside.
Qed.

Lemma in_unit_Fin c : cell_in_unit c -> exists q, c = CNum (Fin q) /\ (0 <= q <= 1)%Q.
Proof.
  destruct c as [[q| | |]|s]; simpl; try contradiction.
  intros H. now exists q.
Qed.

Lemma sanitize_valid parse_float r :
  Reading.index_in_unit r -> BuildScores.sanitize parse_float r = r.
Proof.
  unfold Reading.index_in_unit. intros H.
  destruct (in_unit_Fin _ H) as (q & E & H0 & H1).
  unfold BuildScores.sanitize. rewrite E, (clamp_valid parse_float H0 H1).
  rewrite <- E. now destruct r.
Qed.

Lemma filter_idempotent {A} (p : A -> bool) (l : list A) :
  filter p (filter p l) = filter p l.
Proof.
  induction l as [|x l IH]; simpl; [reflexivity|].
  destruct (p x) eqn:E; simpl; [rewrite E; now f_equal|exact IH].
Qed.

Lemma map_id_on {A} (f : A -> A) (l : list A) :
  (forall x, In x l -> f x = x) -> map f l = l.
Proof.
  induction l as [|x l IH]; intros H; simpl; [reflexivity|].
  rewrite (H x (or_introl eq_refl)), IH; [reflexivity|].
  intros y Hy. apply H. now right.
Qed.

(** X9: step 4 is idempotent, and the security filter of step 5 removes
    nothing from what step 4 wrote: applied to a scores table, step 4 gives
    the same table back, and every row of a scores table passes the fleet
    filter of the clustering stage. *)
Theorem scores_are_a_fixed_point
    (parse_float : string -> option num) (df : DataFrame Airline.t) :
  BuildScores.build_scores parse_float (BuildScores.build_scores parse_float df)
  = BuildScores.build_scores parse_float df
  /\ filter Clustering.large_enough
            (rows (BuildScores.build_scores parse_float df))
     = rows (BuildScores.build_scores parse_float df).
Proof.
  assert (Hfilter :
            filter BuildScores.large_enough
                   (rows (BuildScores.build_scores parse_float df))
            = rows (BuildScores.build_scores parse_float df)).
  { simpl. rewrite filter_map_invariant by reflexivity.
    now rewrite filter_idempotent. }
  split; [|exact Hfilter].
  unfold BuildScores.build_scores at 1. rewrite Hfilter. cbn [columns].
  rewrite map_id_on; [now destruct (BuildScores.build_scores parse_float df)|].
  intros r Hr. apply sanitize_valid.
  pose proof (scores_modernity_in_unit parse_float df) as Hall.
  rewrite Forall_forall in Hall. now apply Hall.
Qed.

(** X10: on the features table that step 3 builds, the clamp of step 4
    changes no value: the scores table has the same columns and is the
    features table without the airlines below [MIN_FLEET_SIZE], row for row. *)
Theorem scores_of_features_only_filter
    (parse_float : string -> option num) (df : DataFrame Aircraft.t) :
  let features := GenerateFeatures.build_stats parse_float df in
  columns (BuildScores.build_scores parse_float features) = columns features
  /\ rows (BuildScores.build_scores parse_float features)
     = filter BuildScores.large_enough (rows features).
Proof.
  intros features. split; [reflexivity|]. simpl. apply map_id_on.
  intros r Hr. apply filter_In in Hr. destruct Hr as [Hr _].
  apply sanitize_valid.
  pose proof (features_modernity_in_unit parse_float df) as Hall.
  rewrite Forall_forall in Hall. now apply Hall.
Qed.

(* ------------------------------------------------------------------ *)
(** ** Step 5: columns, evaluation and files *)

Section ClusteringExtras.
Import Clustering.
Variable parse_float : string -> option num.
Variable W : Type.
Variable h : handler W.

Let required : list string := ["fleet_size"; "diversity_score"; "modernity_index"].

Lemma ensure_required_cols_ok {R} (df : DataFrame R) cols :
  ensure_required_cols df cols = Ok tt <-> Reading.has_columns df cols.
Proof.
  unfold ensure_required_cols. rewrite <- no_absent_column.
  destruct (filter (fun c => negb (has_column df c)) cols);
    split; intros H; reflexivity || discriminate.
Qed.

(** The end of a run that ends well: the classifier is fitted on the
    training part, asked about the test part, and the two metrics compare its
    answers with the labels of the test part. *)
Lemma cluster_scores_evaluation df fs w fs' w' :
  interp h (cluster_scores parse_float df fs) w = (Ok fs', w') ->
  exists Xs km sp knn y_pred metrics w3 w4 w5 w6 w7 w8,
    @h _ (train_test_split Xs (labels_ km) (2 # 10) (Some random_state)
            (Some (labels_ km))) w3 = (Ok sp, w4)
    /\ @h _ (KNeighborsClassifier_fit 5 (X_train sp) (y_train sp)) w4
       = (Ok knn, w5)
    /\ @h _ (KNeighborsClassifier_predict knn (X_test sp)) w5 = (Ok y_pred, w6)
    /\ @h _ (accuracy_score (y_test sp) y_pred) w6 = (Ok (accuracy metrics), w7)
    /\ @h _ (sk_confusion_matrix (y_test sp) y_pred) w7
       = (Ok (confusion_matrix metrics), w8)
    /\ knn_model_pkl fs' = Some knn
    /\ knn_metrics_json fs' = Some metrics.
Proof.
  intros H. unfold cluster_scores in H.
  apply bind_ok_inv in H. destruct H as (u & w0 & _ & H). cbv beta zeta in H.
  apply bind_ok_inv in H. destruct H as ([sc Xs] & w1 & _ & H).
  cbv beta zeta in H. simpl fst in H. simpl snd in H.
  apply bind_ok_inv in H. destruct H as (km & w2 & _ & H). cbv beta zeta in H.
  apply bind_ok_inv in H. destruct H as (labelled & w2' & _ & H).
  apply bind_ok_inv in H. destruct H as (el & w3 & _ & H). cbv beta zeta in H.
  apply bind_ok_inv in H. destruct H as (sp & w4 & Hsp & H).
  rewrite interp_call in Hsp.
  apply bind_ok_inv in H. destruct H as (knn & w5 & Hknn & H).
  rewrite interp_call in Hknn.
  apply bind_ok_inv in H. destruct H as (y_pred & w6 & Hpred & H).
  rewrite interp_call in Hpred.
  apply bind_ok_inv in H. destruct H as (acc & w7 & Hacc & H).
  rewrite interp_call in Hacc.
  apply bind_ok_inv in H. destruct H as (cm & w8 & Hcm & H).
  rewrite interp_call in Hcm. cbv beta zeta in H.
  apply bind_ok_inv in H. destruct H as (comps & w9 & _ & H).
  apply bind_ok_inv in H. destruct H as (projected & w10 & _ & H).
  simpl in H. injection H as Hfs _. subst fs'.
  exists Xs, km, sp, knn, y_pred, (mkMetrics acc cm), w3, w4, w5, w6, w7, w8.
  repeat split; assumption.
Qed.

End ClusteringExtras.

Lemma assign_column_absent name cols :
  Clustering.assign_column name cols
  = (cols ++ filter (fun c => negb (existsb (String.eqb c) cols)) [name])%list.
Proof.
  unfold Clustering.assign_column. cbn [filter].
  destruct (existsb (String.eqb name) cols); cbn [negb];
    [now rewrite app_nil_r|reflexivity].
Qed.

(** Comparisons of two column names that are both known. *)
Ltac compare_names :=
  repeat match goal with
         | |- context [String.eqb ?a ?b] =>
             let v := eval vm_compute in (String.eqb a b) in
             change (String.eqb a b) with v
         end.

Ltac next_column :=
  cbn [columns negb]; rewrite ?existsb_app; cbn [existsb]; compare_names;
  cbn [orb]; rewrite ?orb_false_r.

(** The four columns of the clustering stage are added in this order, each
    only if the table does not have it yet. *)
Lemma clusters_columns (df : DataFrame Airline.t) :
  Clustering.assign_column "pca_2"
    (Clustering.assign_column "pca_1"
       (Clustering.assign_column "cluster"
          (columns (Clustering.with_new_gen_share df))))
  = (columns df
     ++ filter (fun c => negb (has_column df c))
               ["new_gen_share"; "cluster"; "pca_1"; "pca_2"])%list.
Proof.
  unfold Clustering.with_new_gen_share, Clustering.assign_column, has_column.
  cbn [filter].
  destruct (existsb (String.eqb "new_gen_share") (columns df)); next_column;
    destruct (existsb (String.eqb "cluster") (columns df)); next_column;
    destruct (existsb (String.eqb "pca_1") (columns df)); next_column;
    destruct (existsb (String.eqb "pca_2") (columns df)); next_column;
    rewrite <- ?app_assoc, ?app_nil_r; reflexivity.
Qed.

(** X11: the clusters table keeps the columns of the scores table, in order,
    and adds after them those of [new_gen_share], [cluster], [pca_1] and
    [pca_2] that the scores table does not have yet: a column that is there
    is overwritten where it stands, none appears twice.  When
    [new_gen_share] is absent it is in each row a copy of that row's
    [modernity_index]; when it is there the rows keep their own value. *)
Theorem new_gen_share_copies_modernity_index
    (parse_float : string -> option num) (W : Type)
    (h : Clustering.handler W) fs df w fs' w' :
  FILE_SCORES fs = Some df ->
  Clustering.interp h (Clustering.run parse_float fs) w = (Ok fs', w') ->
  exists out,
    FILE_CLUSTERS fs' = Some out
    /\ columns out
       = (columns df
          ++ filter (fun c => negb (has_column df c))
                    ["new_gen_share"; "cluster"; "pca_1"; "pca_2"])%list
    /\ (NoDup (columns df) -> NoDup (columns out))
    /\ (has_column df "new_gen_share" = false ->
        forall c, In c (rows out) ->
          Airline.new_gen_share (airline c)
          = Airline.modernity_index (airline c)
          /\ exists r, In r (rows df)
                       /\ airline c
                          = Airline.set_new_gen_share
                              (Airline.modernity_index r) r)
    /\ (has_column df "new_gen_share" = true ->
        forall c, In c (rows out) -> In (airline c) (rows df)).
Proof.
  intros Hdf H. unfold Clustering.run in H. rewrite Hdf in H.
  apply cluster_scores_ok in H.
  destruct H as (sc & Xs & km & el & sp & knn & metrics & comps
                 & w1 & w2 & w3 & w4 & w5
                 & _ & _ & Hlen & _ & _ & _ & Hlenc & ->).
  destruct (clustered_airlines _ _ _ Hlen Hlenc) as [Hair _].
  eexists. cbn [FILE_CLUSTERS write_artifacts].
  split; [reflexivity|]. cbn [rows columns].
  split; [apply clusters_columns|]. split.
  - intros Hnd. rewrite clusters_columns.
    apply NoDup_app; [exact Hnd| |].
    + apply NoDup_filter. repeat constructor; simpl; intuition discriminate.
    + intros c Hc Hf. apply filter_In in Hf. destruct Hf as [_ Hf].
      apply (has_column_In df) in Hc. rewrite Hc in Hf. discriminate.
  - unfold Clustering.with_new_gen_share in *.
    destruct (has_column df "new_gen_share"); split; try discriminate;
      intros _ c Hc; apply (in_map airline) in Hc; rewrite Hair in Hc;
      apply filter_In in Hc; destruct Hc as [Hc _].
    + exact Hc.
    + cbn [rows] in Hc. apply in_map_iff in Hc. destruct Hc as (r & <- & Hr).
      split; [reflexivity|]. now exists r.
Qed.

Lemma new_gen_share_copies_modernity_index_witness :
  exists out,
    FILE_CLUSTERS Sample.sixteen_files = Some out
    /\ columns out
       = (columns Sample.sixteen_airlines
          ++ filter (fun c => negb (has_column Sample.sixteen_airlines c))
                    ["new_gen_share"; "cluster"; "pca_1"; "pca_2"])%list
    /\ (NoDup (columns Sample.sixteen_airlines) -> NoDup (columns out))
    /\ (has_column Sample.sixteen_airlines "new_gen_share" = false ->
        forall c, In c (rows out) ->
          Airline.new_gen_share (airline c)
          = Airline.modernity_index (airline c)
          /\ exists r, In r (rows Sample.sixteen_airlines)
                       /\ airline c
                          = Airline.set_new_gen_share
                              (Airline.modernity_index r) r)
    /\ (has_column Sample.sixteen_airlines "new_gen_share" = true ->
        forall c, In c (rows out) ->
                  In (airline c) (rows Sample.sixteen_airlines)).
Proof.
  apply (@new_gen_share_copies_modernity_index Reading.no_text nat
           (Sample.transcript Sample.sixteen_test)
           (Sample.files_with_scores Sample.sixteen_airlines)
           Sample.sixteen_airlines 0%nat Sample.sixteen_files 17%nat).
  - reflexivity.
  - vm_compute. reflexivity.
Defined.

(** A scores table that already has a [cluster] column keeps it where it
    stands: the clusters table has it once, before the columns added. *)
Example existing_cluster_column_is_overwritten :
  exists fs' out,
    fst (Clustering.interp (Sample.transcript Sample.sixteen_test)
           (Clustering.run Reading.no_text
              (Sample.files_with_scores Sample.sixteen_with_cluster)) 0%nat)
    = Ok fs'
    /\ FILE_CLUSTERS fs' = Some out
    /\ columns out
       = (Sample.features_columns
          ++ ["cluster"; "new_gen_share"; "pca_1"; "pca_2"])%list.
Proof.
  eexists _, _. split; [vm_compute; reflexivity|].
  split; reflexivity.
Qed.

(** X12: when the scores table lacks one of [fleet_size], [diversity_score],
    [modernity_index], the clustering stage raises a [ValueError] that names
    the absent ones (and, unlike step 3, no available column); it does so
    before any call to the library, so that the run ends with it whatever the
    library is.  A run that ends well had the three columns. *)
Theorem clustering_refuses_missing_columns
    (parse_float : string -> option num) (fs : FileSystem)
    (df : DataFrame Airline.t) :
  FILE_SCORES fs = Some df ->
  let required := ["fleet_size"; "diversity_score"; "modernity_index"] in
  (~ Reading.has_columns df required ->
   exists missing,
     missing <> []
     /\ (forall c, In c missing <-> In c required /\ ~ In c (columns df))
     /\ Clustering.run parse_float fs
        = Clustering.Throw (ValueError "FILE_SCORES" missing [])
     /\ forall W (h : Clustering.handler W) w,
          Clustering.interp h (Clustering.run parse_float fs) w
          = (Raised (ValueError "FILE_SCORES" missing []), w))
  /\ forall W (h : Clustering.handler W) w fs' w',
       Clustering.interp h (Clustering.run parse_float fs) w = (Ok fs', w') ->
       Reading.has_columns df required.
Proof.
  intros Hdf required. unfold Clustering.run. rewrite Hdf.
  unfold Clustering.cluster_scores.
  pose proof (ensure_required_cols_ok df required) as Hok.
  pose proof (absent_columns_In df required) as Hin.
  unfold Clustering.ensure_required_cols in *. fold required.
  destruct (filter (fun c => negb (has_column df c)) required) as [|m ms];
    cbn [Clustering.lift Clustering.pbind Clustering.interp].
  - split; [|intros; now apply Hok].
    intros Hno. exfalso. now apply Hno, Hok.
  - split; [|intros W h w fs' w' [=]].
    intros _. exists (m :: ms). split; [discriminate|].
    split; [exact Hin|]. split; reflexivity.
Qed.

Lemma clustering_refuses_missing_columns_witness :
  let required := ["fleet_size"; "diversity_score"; "modernity_index"] in
  (~ Reading.has_columns Sample.scores_without_diversity required ->
   exists missing,
     missing <> []
     /\ (forall c, In c missing <->
                   In c required
                   /\ ~ In c (columns Sample.scores_without_diversity))
     /\ Clustering.run Reading.no_text
          (Sample.files_with_scores Sample.scores_without_diversity)
        = Clustering.Throw (ValueError "FILE_SCORES" missing [])
     /\ forall W (h : Clustering.handler W) w,
          Clustering.interp h
            (Clustering.run Reading.no_text
               (Sample.files_with_scores Sample.scores_without_diversity)) w
          = (Raised (ValueError "FILE_SCORES" missing []), w))
  /\ forall W (h : Clustering.handler W) w fs' w',
       Clustering.interp h
         (Clustering.run Reading.no_text
            (Sample.files_with_scores Sample.scores_without_diversity)) w
       = (Ok fs', w') ->
       Reading.has_columns Sample.scores_without_diversity required.
Proof.
  apply (clustering_refuses_missing_columns Reading.no_text
           (Sample.files_with_scores Sample.scores_without_diversity)
           (df := Sample.scores_without_diversity)).
  reflexivity.
Defined.

(** The scores table without [diversity_score] is refused with that name. *)
Example scores_without_diversity_are_refused :
  Clustering.run Reading.no_text
    (Sample.files_with_scores Sample.scores_without_diversity)
  = Clustering.Throw (ValueError "FILE_SCORES" ["diversity_score"] []).
Proof. reflexivity. Qed.

(** X13: the metrics a run writes are measured on the test part only, with
    the classifier that is persisted: that classifier is fitted with five
    neighbours on the training part of the split, asked about the test part,
    and the accuracy and the confusion matrix compare its answers with the
    labels of the test part. *)
Theorem metrics_are_measured_on_the_test_part
    (parse_float : string -> option num) (W : Type)
    (h : Clustering.handler W) fs df w fs' w' :
  FILE_SCORES fs = Some df ->
  Clustering.interp h (Clustering.run parse_float fs) w = (Ok fs', w') ->
  exists Xs km sp knn y_pred metrics w3 w4 w5 w6 w7 w8,
    h _ (Clustering.train_test_split Xs (Clustering.labels_ km) (2 # 10)
           (Some Clustering.random_state) (Some (Clustering.labels_ km))) w3
    = (Ok sp, w4)
    /\ h _ (Clustering.KNeighborsClassifier_fit 5 (Clustering.X_train sp)
              (Clustering.y_train sp)) w4 = (Ok knn, w5)
    /\ h _ (Clustering.KNeighborsClassifier_predict knn (Clustering.X_test sp))
         w5 = (Ok y_pred, w6)
    /\ h _ (Clustering.accuracy_score (Clustering.y_test sp) y_pred) w6
       = (Ok (accuracy metrics), w7)
    /\ h _ (Clustering.sk_confusion_matrix (Clustering.y_test sp) y_pred) w7
       = (Ok (confusion_matrix metrics), w8)
    /\ knn_model_pkl fs' = Some knn
    /\ knn_metrics_json fs' = Some metrics.
Proof.
  intros Hdf H. unfold Clustering.run in H. rewrite Hdf in H.
  now apply cluster_scores_evaluation in H.
Qed.

Lemma metrics_are_measured_on_the_test_part_witness :
  exists Xs km sp knn y_pred metrics w3 w4 w5 w6 w7 w8,
    @Sample.transcript Sample.sixteen_test _
      (Clustering.train_test_split Xs (Clustering.labels_ km) (2 # 10)
         (Some Clustering.random_state) (Some (Clustering.labels_ km))) w3
    = (Ok sp, w4)
    /\ @Sample.transcript Sample.sixteen_test _
         (Clustering.KNeighborsClassifier_fit 5 (Clustering.X_train sp)
            (Clustering.y_train sp)) w4 = (Ok knn, w5)
    /\ @Sample.transcript Sample.sixteen_test _
         (Clustering.KNeighborsClassifier_predict knn (Clustering.X_test sp))
         w5 = (Ok y_pred, w6)
    /\ @Sample.transcript Sample.sixteen_test _
         (Clustering.accuracy_score (Clustering.y_test sp) y_pred) w6
       = (Ok (accuracy metrics), w7)
    /\ @Sample.transcript Sample.sixteen_test _
         (Clustering.sk_confusion_matrix (Clustering.y_test sp) y_pred) w7
       = (Ok (confusion_matrix metrics), w8)
    /\ knn_model_pkl Sample.sixteen_files = Some knn
    /\ knn_metrics_json Sample.sixteen_files = Some metrics.
Proof.
  apply (@metrics_are_measured_on_the_test_part Reading.no_text nat
           (Sample.transcript Sample.sixteen_test)
           (Sample.files_with_scores Sample.sixteen_airlines)
           Sample.sixteen_airlines 0%nat Sample.sixteen_files 17%nat).
  - reflexivity.
  - vm_compute. reflexivity.
Defined.

(* ------------------------------------------------------------------ *)
(** ** main.py: the three steps in a row, and what app.py finds *)

Section Pipeline.
Import Clustering.
Variable parse_float : string -> option num.
Variable W : Type.
Variable h : handler W.

Let features_of (fleet : DataFrame Aircraft.t) : DataFrame Airline.t :=
  GenerateFeatures.build_stats parse_float fleet.

Let scores_of (fleet : DataFrame Aircraft.t) : DataFrame Airline.t :=
  BuildScores.build_scores parse_float (features_of fleet).

Let completed (r : Airline.t) : Airline.t :=
  Airline.set_new_gen_share (Airline.modernity_index r) r.

Lemma generate_features_ok fs fs1 :
  GenerateFeatures.main parse_float fs = Ok fs1 ->
  exists fleet,
    DATA_FLEET_ENRICHED fs = Some fleet
    /\ fs1 = write_features (features_of fleet) fs.
Proof.
  unfold GenerateFeatures.main. intros H.
  destruct (DATA_FLEET_ENRICHED fs) as [fleet|]; [|discriminate].
  destruct (GenerateFeatures.require_columns _ _ _); [|discriminate].
  simpl in H. injection H as <-. now exists fleet.
Qed.

(** Step 4 always starts on the table step 3 has just written. *)
Lemma features_then_scores fs fleet :
  BuildScores.main parse_float (write_features (features_of fleet) fs)
  = Ok (write_scores (scores_of fleet) (write_features (features_of fleet) fs)).
Proof.
  unfold BuildScores.main. cbn [FILE_FEATURES write_features].
  unfold has_column, scores_of, features_of, GenerateFeatures.build_stats.
  cbn [columns].
  destruct (GenerateFeatures.diversity_col fleet); reflexivity.
Qed.

Lemma completed_scores fleet :
  with_new_gen_share (scores_of fleet)
  = mkDataFrame (columns (features_of fleet) ++ ["new_gen_share"])
                (map completed (rows (scores_of fleet))).
Proof.
  unfold with_new_gen_share, has_column, scores_of, features_of,
    BuildScores.build_scores, GenerateFeatures.build_stats.
  cbn [columns].
  destruct (GenerateFeatures.diversity_col fleet); reflexivity.
Qed.

Lemma completed_scores_pass fleet :
  filter large_enough (map completed (rows (scores_of fleet)))
  = map completed (rows (scores_of fleet)).
Proof.
  rewrite filter_map_invariant by reflexivity. f_equal.
  unfold scores_of, BuildScores.build_scores. cbn [rows].
  rewrite filter_map_invariant by reflexivity.
  now rewrite filter_idempotent.
Qed.

(** Step 5 always passes its column check on the table step 4 has just
    written, and standardizes every row of it. *)
Lemma scores_then_clustering fleet fs :
  exists k,
    cluster_scores parse_float (scores_of fleet) fs
    = Call (StandardScaler_fit_transform
              (map (features parse_float)
                   (map completed (rows (scores_of fleet))))) k.
Proof.
  unfold cluster_scores.
  assert (Hcols : ensure_required_cols (scores_of fleet)
                    ["fleet_size"; "diversity_score"; "modernity_index"]
                  = Ok tt).
  { unfold ensure_required_cols, has_column, scores_of, features_of,
      BuildScores.build_scores, GenerateFeatures.build_stats.
    cbn [columns].
    destruct (GenerateFeatures.diversity_col fleet); reflexivity. }
  rewrite Hcols, completed_scores. cbn [lift pbind rows].
  rewrite completed_scores_pass. cbn [call pbind]. eexists. reflexivity.
Qed.

(** The three ways [main.py] ends. *)
Lemma main_cases fs w fs' out w' :
  Main.main parse_float h fs w = (fs', out, w') ->
  (exists e,
      GenerateFeatures.main parse_float fs = Raised e
      /\ fs' = fs /\ out = Main.Failed e /\ w' = w)
  \/ exists fleet,
       DATA_FLEET_ENRICHED fs = Some fleet
       /\ let fs2 := write_scores (scores_of fleet)
                       (write_features (features_of fleet) fs) in
          (exists e,
              interp h (cluster_scores parse_float (scores_of fleet) fs2) w
              = (Raised e, w')
              /\ fs' = fs2 /\ out = Main.Failed e)
          \/ (interp h (cluster_scores parse_float (scores_of fleet) fs2) w
              = (Ok fs', w')
              /\ out = Main.Finished).
Proof.
  unfold Main.main. intros H.
  destruct (GenerateFeatures.main parse_float fs) as [fs1|e] eqn:E1.
  - right. apply generate_features_ok in E1.
    destruct E1 as (fleet & Hfleet & ->). exists fleet.
    split; [exact Hfleet|]. cbv zeta.
    rewrite features_then_scores in H.
    set (fs2 := write_scores (scores_of fleet)
                  (write_features (features_of fleet) fs)) in *.
    unfold run in H.
    change (FILE_SCORES fs2) with (Some (scores_of fleet)) in H. cbv iota in H.
    destruct (interp h _ w) as [[fs3|e] w3].
    + right. injection H as <- <- <-. now split.
    + left. exists e. injection H as <- <- <-. now repeat split.
  - left. exists e. injection H as <- <- <-. now repeat split.
Qed.

End Pipeline.

(** X14: when [main.py] ends with its closing message, everything the
    dashboard loads is there: the fleet file is untouched, the features and
    the scores are those of this fleet, [load_all_data] finds the five
    artifacts, and the clusters table holds every airline of the scores
    table, in order, each completed with [new_gen_share], under the columns
    of the features followed by [new_gen_share], [cluster], [pca_1] and
    [pca_2]. *)
Theorem a_finished_run_can_be_loaded
    (parse_float : string -> option num) (W : Type)
    (h : Clustering.handler W) fs w fs' w' :
  Main.main parse_float h fs w = (fs', Main.Finished, w') ->
  exists fleet clusters elbow metrics knn scaler,
    DATA_FLEET_ENRICHED fs = Some fleet
    /\ let features := GenerateFeatures.build_stats parse_float fleet in
       let scores := BuildScores.build_scores parse_float features in
       DATA_FLEET_ENRICHED fs' = Some fleet
       /\ FILE_FEATURES fs' = Some features
       /\ FILE_SCORES fs' = Some scores
       /\ App.load_all_data fs' = Some (clusters, elbow, metrics, knn, scaler)
       /\ columns clusters
          = (columns features
             ++ ["new_gen_share"; "cluster"; "pca_1"; "pca_2"])%list
       /\ map airline (rows clusters)
          = map (fun r => Airline.set_new_gen_share
                            (Airline.modernity_index r) r)
                (rows scores).
Proof.
  intros H. apply main_cases in H.
  destruct H as [(e & _ & _ & [=] & _)|(fleet & Hfleet & H)].
  cbv zeta in H. destruct H as [(e & _ & _ & [=])|[H _]].
  apply cluster_scores_ok in H. cbv zeta in H.
  rewrite completed_scores in H. cbn [rows columns] in H.
  rewrite completed_scores_pass in H.
  destruct H as (sc & Xs & km & el & sp & knn & metrics & comps
                 & w1 & w2 & w3 & w4 & w5
                 & _ & _ & Hlen & _ & _ & _ & Hlenc & ->).
  destruct (clustered_airlines _ _ _ Hlen Hlenc) as [Hair _].
  eexists fleet, _, el, metrics, knn, sc.
  split; [exact Hfleet|]. cbv zeta.
  unfold App.load_all_data.
  cbn [DATA_FLEET_ENRICHED FILE_FEATURES FILE_SCORES FILE_CLUSTERS
       elbow_data_json knn_metrics_json knn_model_pkl scaler_pkl
       write_artifacts write_scores write_features].
  split; [exact Hfleet|]. split; [reflexivity|]. split; [reflexivity|].
  split; [reflexivity|]. cbn [columns rows].
  split; [|exact Hair].
  unfold GenerateFeatures.build_stats. cbn [columns].
  destruct (GenerateFeatures.diversity_col fleet); reflexivity.
Qed.

Lemma a_finished_run_can_be_loaded_witness :
  exists fleet clusters elbow metrics knn scaler,
    DATA_FLEET_ENRICHED (Sample.files_with_fleet Sample.sixteen_fleet)
    = Some fleet
    /\ let features := GenerateFeatures.build_stats Reading.no_text fleet in
       let scores := BuildScores.build_scores Reading.no_text features in
       DATA_FLEET_ENRICHED (fst (fst Sample.sixteen_pipeline)) = Some fleet
       /\ FILE_FEATURES (fst (fst Sample.sixteen_pipeline)) = Some features
       /\ FILE_SCORES (fst (fst Sample.sixteen_pipeline)) = Some scores
       /\ App.load_all_data (fst (fst Sample.sixteen_pipeline))
          = Some (clusters, elbow, metrics, knn, scaler)
       /\ columns clusters
          = (columns features
             ++ ["new_gen_share"; "cluster"; "pca_1"; "pca_2"])%list
       /\ map airline (rows clusters)
          = map (fun r => Airline.set_new_gen_share
                            (Airline.modernity_index r) r)
                (rows scores).
Proof.
  apply (@a_finished_run_can_be_loaded Reading.no_text nat
           (Sample.transcript Sample.sixteen_test)
           (Sample.files_with_fleet Sample.sixteen_fleet) 0%nat
           (fst (fst Sample.sixteen_pipeline)) 17%nat).
  vm_compute. reflexivity.
Defined.

(** X15: when [main.py] ends on an error, either step 3 raised it and no
    file has changed, or steps 3 and 4 have written the features and the
    scores of this fleet and nothing else has changed: step 4 and the column
    check of step 5 cannot fail after step 3, the clustering stage came to
    standardize every airline of the scores, and the error is the one a run
    of the clustering stage alone on the files left gives with the same
    library. *)
Theorem a_failed_run_keeps_the_finished_steps
    (parse_float : string -> option num) (W : Type)
    (h : Clustering.handler W) fs w fs' e w' :
  Main.main parse_float h fs w = (fs', Main.Failed e, w') ->
  (GenerateFeatures.main parse_float fs = Raised e /\ fs' = fs /\ w' = w)
  \/ exists fleet k,
       DATA_FLEET_ENRICHED fs = Some fleet
       /\ let features := GenerateFeatures.build_stats parse_float fleet in
          let scores := BuildScores.build_scores parse_float features in
          fs' = write_scores scores (write_features features fs)
          /\ Clustering.run parse_float fs'
             = Clustering.Call
                 (Clustering.StandardScaler_fit_transform
                    (map (Clustering.features parse_float)
                         (map (fun r => Airline.set_new_gen_share
                                          (Airline.modernity_index r) r)
                              (rows scores)))) k
          /\ Clustering.interp h (Clustering.run parse_float fs') w
             = (Raised e, w').
Proof.
  intros H. apply main_cases in H.
  destruct H as [(e' & H1 & -> & [= <-] & ->)|(fleet & Hfleet & H)].
  - left. now repeat split.
  - right. cbv zeta in H. destruct H as [(e' & H & -> & [= <-])|[_ [=]]].
    destruct (scores_then_clustering parse_float fleet
                (write_scores
                   (BuildScores.build_scores parse_float
                      (GenerateFeatures.build_stats parse_float fleet))
                   (write_features
                      (GenerateFeatures.build_stats parse_float fleet) fs)))
      as [k Hk].
    exists fleet, k. split; [exact Hfleet|]. cbv zeta.
    split; [reflexivity|]. unfold Clustering.run.
    cbn [FILE_SCORES write_scores]. split; [exact Hk|exact H].
Qed.

Lemma a_failed_run_keeps_the_finished_steps_witness :
  (GenerateFeatures.main Reading.no_text
     (Sample.files_with_scores Sample.sixteen_airlines)
   = Raised (FileNotFoundError "data/processed/fleet_enriched_v2.csv")
   /\ fst (fst Sample.pipeline_without_fleet)
      = Sample.files_with_scores Sample.sixteen_airlines
   /\ 0%nat = 0%nat)
  \/ exists fleet k,
       DATA_FLEET_ENRICHED (Sample.files_with_scores Sample.sixteen_airlines)
       = Some fleet
       /\ let features := GenerateFeatures.build_stats Reading.no_text fleet in
          let scores := BuildScores.build_scores Reading.no_text features in
          fst (fst Sample.pipeline_without_fleet)
          = write_scores scores
              (write_features features
                 (Sample.files_with_scores Sample.sixteen_airlines))
          /\ Clustering.run Reading.no_text
               (fst (fst Sample.pipeline_without_fleet))
             = Clustering.Call
                 (Clustering.StandardScaler_fit_transform
                    (map (Clustering.features Reading.no_text)
                         (map (fun r => Airline.set_new_gen_share
                                          (Airline.modernity_index r) r)
                              (rows scores)))) k
          /\ Clustering.interp (Sample.transcript Sample.sixteen_test)
               (Clustering.run Reading.no_text
                  (fst (fst Sample.pipeline_without_fleet))) 0%nat
             = (Raised (FileNotFoundError
                          "data/processed/fleet_enriched_v2.csv"), 0%nat).
Proof.
  apply (@a_failed_run_keeps_the_finished_steps Reading.no_text nat
           (Sample.transcript Sample.sixteen_test)
           (Sample.files_with_scores Sample.sixteen_airlines) 0%nat
           (fst (fst Sample.pipeline_without_fleet))
           (FileNotFoundError "data/processed/fleet_enriched_v2.csv") 0%nat).
  reflexivity.
Defined.

(* ------------------------------------------------------------------ *)
(** ** Step 4: what it requires *)

(** X16: step 4 raises [FileNotFoundError] when the features file is absent,
    and when the file lacks [fleet_size] or [modernity_index] a [ValueError]
    that names the absent ones among the two and lists the columns that are
    present.  When it ends well the file was there with both columns, and
    the only file it has changed is the scores table. *)
Theorem build_scores_checks_its_input
    (parse_float : string -> option num) (fs : FileSystem) :
  let required := ["fleet_size"; "modernity_index"] in
  (FILE_FEATURES fs = None ->
   BuildScores.main parse_float fs
   = Raised (FileNotFoundError "data/processed/airlines_features.csv"))
  /\ (forall df,
         FILE_FEATURES fs = Some df ->
         ~ Reading.has_columns df required ->
         exists missing,
           missing <> []
           /\ (forall c, In c missing <-> In c required /\ ~ In c (columns df))
           /\ BuildScores.main parse_float fs
              = Raised (ValueError "FILE_FEATURES" missing (columns df)))
  /\ (forall fs',
         BuildScores.main parse_float fs = Ok fs' ->
         exists df,
           FILE_FEATURES fs = Some df
           /\ Reading.has_columns df required
           /\ fs' = write_scores (BuildScores.build_scores parse_float df) fs).
Proof.
  intros required. unfold BuildScores.main.
  split; [now intros ->|]. split.
  - intros df -> Hno.
    pose proof (no_absent_column df required) as Hnone.
    pose proof (absent_columns_In df required) as Hin.
    fold required.
    destruct (filter (fun c => negb (has_column df c)) required) as [|m ms].
    + exfalso. now apply Hno, Hnone.
    + exists (m :: ms). split; [discriminate|]. split; [exact Hin|reflexivity].
  - intros fs'. destruct (FILE_FEATURES fs) as [df|]; [|discriminate].
    pose proof (no_absent_column df required) as Hnone. fold required.
    destruct (filter (fun c => negb (has_column df c)) required) as [|m ms];
      [|discriminate].
    intros [= <-]. exists df. split; [reflexivity|].
    split; [now apply Hnone|reflexivity].
Qed.
